(** * PdfVault backend (backend/server.js): a shallow embedding

    The service is one Express application: a CORS middleware, a static
    mount of the upload directory under [/pdfs], an informational root page,
    the upload route [POST /upload] (multer, single file field [pdfFile]) and
    the listing route [GET /pdfs].

    The functions written in server.js are embedded one by one and keep their
    names.  Express, multer and serve-static are libraries: the parts of them
    the application relies on are modelled in the modules [Express],
    [Multer] and [ServeStatic] below, each with the behaviour it
    stands for.  What depends on the version of a library or on the operating
    system, and what the libraries do with inputs the embedding does not follow,
    is gathered in the record [library] and taken as given.  The file system
    is reduced to what the program touches: the upload directory, absent or a
    flat map from entry names to contents. *)

From Stdlib Require Import Strings.Byte Strings.Ascii.
From stdpp Require Import base strings list gmap pretty.

Open Scope string_scope.
Set Warnings "-register-all".

(** ** Strings as JavaScript uses them here *)

Definition ascii_lower (c : ascii) : ascii :=
  let n := nat_of_ascii c in
  if (65 <=? n)%nat && (n <=? 90)%nat then ascii_of_nat (n + 32) else c.

Fixpoint lower (s : string) : string :=
  match s with
  | EmptyString => EmptyString
  | String c s' => String (ascii_lower c) (lower s')
  end.

(** [s.endsWith(suffix)] *)
Fixpoint endsWith (s suffix : string) : bool :=
  if String.eqb s suffix then true
  else match s with
       | EmptyString => false
       | String _ s' => endsWith s' suffix
       end.

(** [s.startsWith(p)], returning what follows the prefix. *)
Fixpoint strip_prefix (p s : string) : option string :=
  match p, s with
  | EmptyString, _ => Some s
  | String a p', String b s' => if Ascii.eqb a b then strip_prefix p' s' else None
  | String _ _, EmptyString => None
  end.

Fixpoint contains_char (c : ascii) (s : string) : bool :=
  match s with
  | EmptyString => false
  | String b s' => Ascii.eqb c b || contains_char c s'
  end.

(** ** JSON values, responses *)

Inductive json :=
| JBool (b : bool)
| JString (s : string)
| JArray (items : list json)
| JObject (fields : list (string * json)).

Inductive body :=
| NoBody
| Json (v : json)                      (* res.json(v) *)
| Html (markup : string)               (* res.send(markup) *)
| FileBytes (data : list byte)         (* a file streamed by the static mount *)
| RedirectPage (location : string)     (* serve-static's redirect document *)
| ErrorPage (verb : string).           (* the final handler's HTML page *)

Record response := Response {
  status : nat;
  headers : list (string * string);
  payload : body
}.

(** Header names are compared without regard to case, as Node does. *)
Definition same_header (a b : string) : bool := String.eqb (lower a) (lower b).

Fixpoint set_header_in (name value : string) (hs : list (string * string))
  : list (string * string) :=
  match hs with
  | [] => [(name, value)]
  | (n, v) :: rest =>
      if same_header n name then (name, value) :: rest
      else (n, v) :: set_header_in name value rest
  end.

Fixpoint get_header_in (name : string) (hs : list (string * string)) : option string :=
  match hs with
  | [] => None
  | (n, v) :: rest => if same_header n name then Some v else get_header_in name rest
  end.

(** [res.setHeader], [res.getHeader], [res.status(n)] *)
Definition setHeader (name value : string) (res : response) : response :=
  Response (status res) (set_header_in name value (headers res)) (payload res).

Definition getHeader (name : string) (res : response) : option string :=
  get_header_in name (headers res).

Definition set_status (n : nat) (res : response) : response :=
  Response n (headers res) (payload res).

Definition set_type_if_unset (value : string) (res : response) : response :=
  match getHeader "Content-Type" res with
  | Some _ => res
  | None => setHeader "Content-Type" value res
  end.

(** [res.json(v)] and [res.send(markup)]: the body, and a content type when
    none was set before.  Their look at the validators of the request comes
    with [Express.conditional]. *)
Definition res_json (v : json) (res : response) : response :=
  let res := set_type_if_unset "application/json; charset=utf-8" res in
  Response (status res) (headers res) (Json v).

Definition res_send (markup : string) (res : response) : response :=
  let res := set_type_if_unset "text/html; charset=utf-8" res in
  Response (status res) (headers res) (Html markup).

(** The response object a request starts with. *)
Definition fresh_response : response := Response 200 [] NoBody.

(** ** The file system and the clock

    Only [UPLOAD_DIR] is touched.  It is absent ([None]) or a directory, given
    as the finite map from its entry names to the bytes stored under them; the
    directory is flat.  [parent] tells what [fs.mkdirSync] meets one level up,
    in [__dirname]. *)

Inductive parent_state := ParentMissing | ParentReadOnly | ParentWritable.

Abbreviation storage := (option (gmap string (list byte))).

Record disk := Disk {
  parent : parent_state;
  uploads : storage
}.

Definition existsSync (dir : storage) : bool :=
  match dir with Some _ => true | None => false end.

(** [fs.mkdirSync(UPLOAD_DIR)], without the [recursive] option: one level is
    created, inside a parent that must exist and accept the new entry.  [None]
    stands for the exception it throws. *)
Definition mkdirSync (d : disk) : option disk :=
  match parent d, uploads d with
  | ParentWritable, None => Some (Disk ParentWritable (Some ∅))
  | _, _ => None
  end.

(** [fs.readdir(UPLOAD_DIR, cb)]: the error, or the entry names in the order the
    directory yields them. *)
Definition readdir (dir : storage) : option (list string) :=
  match dir with
  | Some entries => Some (map_to_list entries).*1
  | None => None
  end.

(** Operations on files inside the upload directory, named by entry. *)
Inductive fs_op :=
| OpWrite (name : string) (data : list byte)
| OpUnlink (name : string).

Definition apply_op (dir : storage) (op : fs_op) : storage :=
  match dir, op with
  | Some entries, OpWrite name data => Some (<[name := data]> entries)
  | Some entries, OpUnlink name => Some (delete name entries)
  | None, _ => None
  end.

(** ** Requests *)

Inductive method := GET | HEAD | POST | OPTIONS | OtherMethod.

(** A file part of a multipart body as multer hands it to the callbacks of
    server.js: [file.fieldname], [file.originalname], [file.mimetype], and the
    bytes of [file.stream].  The parser keeps the base name of the file name the
    client sent, so [originalname] names an entry, not a path. *)
Record file_part := FilePart {
  fieldname : string;
  originalname : string;
  mimetype : string;
  content : list byte
}.

(** What the multipart parser reports for one part: a file, or a text field
    with the two truncation flags. *)
Inductive part :=
| PFile (f : file_part)
| PField (name value : string) (nameTruncated valueTruncated : bool).

(** How a multipart body ends: with its closing boundary; with something the
    parser gives up on, after the parts; or inside a part, whose bytes received
    so far are the [content] of [unfinished] when it is a file.  The two
    failures come with the parser's message. *)
Inductive body_end :=
| Complete
| Malformed (message : string)
| Cut (unfinished : part) (message : string).

(** The request body as the upload middleware sees it: not a multipart body at
    all, or the complete parts in order and the way the body ends. *)
Inductive upload_body :=
| NotMultipart
| Multipart (parts : list part) (ending : body_end).

(** [path] is the path name of the request URL, percent escapes decoded; the
    embedding follows the targets whose escapes, if any, lie in the file name
    after [/pdfs/]. *)
Record request := Request {
  req_method : method;
  path : string;
  req_headers : list (string * string);
  req_body : upload_body
}.

(** ** What is taken as given

    server.js pins no version of its libraries, and part of what they and the
    operating system do lies outside the embedding:
    - [multer_message]: the message of a [MulterError], by its code;
    - [open_refusal]: the message of the error raised when a path inside an
      existing directory cannot be opened for writing (a name too long, say),
      [None] when it opens;
    - [late_errors]: whether the multipart parser raises its error once more
      after the upload middleware has ended the request and dropped its
      listeners, as it does in the versions of multer that end the process on
      a body cut short;
    - [static_resolve]: the entry the static mount reaches from a path that
      needs normalising (repeated slashes, dot segments, leading dots), [None]
      when it reaches none;
    - [revalidate]: the answer to a conditional or range request (304, 206,
      412, 416), made from the answer an unconditional request would get. *)
Record library := Library {
  multer_message : string → string;
  open_refusal : string → option string;
  late_errors : bool;
  static_resolve : string → option string;
  revalidate : request → response → response
}.

(** ** multer

    [multer({storage, fileFilter}).single(field)] as the application uses it.
    The parts are taken in order.  A part without a field name is refused.  A
    file part without a file name (a file input left empty) is drained and
    ignored.  A named file part is refused with a [MulterError] when its field
    is not [field] or when the one file the field may hold has been taken;
    otherwise the application's [fileFilter] decides, and an accepted file is
    written by the disk storage engine at [destination/filename], both asked
    from the application's callbacks.  The errors of the parser and of the
    checks arrive while the body is read; the error of a write that could not
    start arrives after them and is reported when nothing else has ended the
    request.  When an error ends the request, the files stored in full are
    unlinked and the error goes to the callback; what was written of a file the
    body was cut in stays.  Otherwise the callback runs with [req.file] set to
    the stored file, if any. *)

Inductive upload_error :=
| MulterError (code message : string)     (* err instanceof multer.MulterError *)
| PlainError (message : string).          (* any other Error *)

(** [req.file] *)
Record uploaded_file := UploadedFile {
  part_of : file_part;
  destination : string;
  filename : string;
  file_path : string;
  file_size : nat
}.

(** [path.join(a, b)] for an absolute, normalised [a] and a plain name [b]. *)
Definition path_join (a b : string) : string :=
  if endsWith a "/" then a +:+ b else a +:+ "/" +:+ b.

Module Multer.

Record options := Options {
  opt_destination : file_part → upload_error + string;
  opt_filename : file_part → upload_error + string;
  opt_fileFilter : file_part → upload_error + bool
}.

(** [failed] holds the error of the first write that could not start. *)
Record state := State {
  filesLeft : nat;
  uploadedFiles : list uploaded_file;
  dir : storage;
  ops : list fs_op;
  failed : option upload_error
}.

Inductive progress :=
| Go (st : state)
| Abort (e : upload_error) (st : state).

(** What the middleware hands over: the callback's [err], [req.file], the
    directory afterwards, the file operations performed, in order, and the
    error that escapes every listener, if one does. *)
Record outcome := Outcome {
  error : option upload_error;
  file : option uploaded_file;
  dir_after : storage;
  performed : list fs_op;
  escaped : option string
}.

Definition multer_error (lib : library) (code : string) : upload_error :=
  MulterError code (multer_message lib code).

(** The error of [fs.open] on a path whose directory does not exist. *)
Definition no_entry (full : string) : upload_error :=
  PlainError ("ENOENT: no such file or directory, open '" +:+ full +:+ "'").

Definition perform (op : fs_op) (st : state) : state :=
  State (filesLeft st) (uploadedFiles st) (apply_op (dir st) op) (ops st ++ [op])
        (failed st).

Definition fail_later (e : upload_error) (st : state) : state :=
  State (filesLeft st) (uploadedFiles st) (dir st) (ops st)
        (match failed st with Some e0 => Some e0 | None => Some e end).

(** [DiskStorage._handleFile].  [root] is the path of the one directory the
    file system holds; [complete] tells whether the bytes of the file arrive in
    full, in which case the file counts as stored.  A file that opens is
    written: a write that fails later (a full disk) is not followed. *)
Definition handleFile (lib : library) (root : string) (o : options) (complete : bool)
    (f : file_part) (st : state) : progress :=
  match opt_destination o f with
  | inl e => Abort e st
  | inr dest =>
      match opt_filename o f with
      | inl e => Abort e st
      | inr name =>
          let full := path_join dest name in
          if negb (String.eqb dest root) then Go (fail_later (no_entry full) st)
          else
            match dir st with
            | None => Go (fail_later (no_entry full) st)
            | Some _ =>
                match open_refusal lib full with
                | Some message => Go (fail_later (PlainError message) st)
                | None =>
                    let st := perform (OpWrite name (content f)) st in
                    if complete then
                      let info := UploadedFile f dest name full (length (content f)) in
                      Go (State (filesLeft st) (uploadedFiles st ++ [info]) (dir st)
                                (ops st) (failed st))
                    else Go st
                end
            end
      end
  end.

(** The [file] event, with the field check that [single] wraps around the
    application's filter. *)
Definition on_file (lib : library) (root : string) (o : options) (field : string)
    (complete : bool) (f : file_part) (st : state) : progress :=
  if String.eqb (fieldname f) "" then Abort (multer_error lib "MISSING_FIELD_NAME") st
  else if String.eqb (originalname f) "" then Go st
  else if negb (String.eqb (fieldname f) field) || (filesLeft st =? 0)%nat then
    Abort (multer_error lib "LIMIT_UNEXPECTED_FILE") st
  else
    let st := State (filesLeft st - 1) (uploadedFiles st) (dir st) (ops st) (failed st) in
    match opt_fileFilter o f with
    | inl e => Abort e st
    | inr false => Go st
    | inr true => handleFile lib root o complete f st
    end.

(** The [field] event: text fields go to [req.body], which the application
    never reads; one without a name or a truncated one ends the request. *)
Definition on_field (lib : library) (name : string) (nameTruncated valueTruncated : bool)
    (st : state) : progress :=
  if String.eqb name "" then Abort (multer_error lib "MISSING_FIELD_NAME") st
  else if nameTruncated then Abort (multer_error lib "LIMIT_FIELD_KEY") st
  else if valueTruncated then Abort (multer_error lib "LIMIT_FIELD_VALUE") st
  else Go st.

Definition on_part (lib : library) (root : string) (o : options) (field : string)
    (p : part) (st : state) : progress :=
  match p with
  | PFile f => on_file lib root o field true f st
  | PField name _ nt vt => on_field lib name nt vt st
  end.

Fixpoint run (lib : library) (root : string) (o : options) (field : string)
    (ps : list part) (st : state) : progress :=
  match ps with
  | [] => Go st
  | p :: ps' =>
      match on_part lib root o field p st with
      | Go st' => run lib root o field ps' st'
      | Abort e st' => Abort e st'
      end
  end.

(** The part the body is cut in: a file is announced when its bytes begin, a
    text field only when it is complete. *)
Definition on_unfinished (lib : library) (root : string) (o : options) (field : string)
    (p : part) (st : state) : progress :=
  match p with
  | PFile f => on_file lib root o field false f st
  | PField _ _ _ _ => Go st
  end.

(** [DiskStorage._removeFile] on every file stored so far. *)
Definition removeUploadedFiles (st : state) : state :=
  foldl (λ st f, perform (OpUnlink (filename f)) st) st (uploadedFiles st).

Definition abortWithError (e : upload_error) (late : option string) (st : state)
  : outcome :=
  let st := removeUploadedFiles st in
  Outcome (Some e) None (dir st) (ops st) late.

Definition single (lib : library) (root : string) (o : options) (field : string)
    (b : upload_body) (d : storage) : outcome :=
  match b with
  | NotMultipart => Outcome None None d [] None
  | Multipart ps ending =>
      match run lib root o field ps (State 1 [] d [] None) with
      | Abort e st => abortWithError e None st
      | Go st =>
          match ending with
          | Complete =>
              match failed st with
              | Some e => abortWithError e None st
              | None => Outcome None (head (uploadedFiles st)) (dir st) (ops st) None
              end
          | Malformed message => abortWithError (PlainError message) None st
          | Cut p message =>
              match on_unfinished lib root o field p st with
              | Abort e st' => abortWithError e None st'
              | Go st' =>
                  abortWithError (PlainError message)
                                 (if late_errors lib then Some message else None) st'
              end
          end
      end
  end.

End Multer.

(** ** Express: route matching, the final handler *)

Module Express.

Fixpoint drop_chars (n : nat) (s : string) : string :=
  match n, s with
  | O, _ => s
  | S n', String _ s' => drop_chars n' s'
  | S _, EmptyString => EmptyString
  end.

(** [app.get(route, ...)] and [app.post(route, ...)] with the default
    settings: letter case is ignored and one trailing slash is allowed. *)
Definition route_matches (route p : string) : bool :=
  let p := lower p in
  if String.eqb route "/" then String.eqb p "/" || String.eqb p ""
  else String.eqb p route || String.eqb p (route +:+ "/").

(** [app.use(mount, ...)]: the mount path matches as a prefix that ends at a
    segment boundary; the middleware sees what follows it. *)
Definition mount_rest (mount p : string) : option string :=
  match strip_prefix mount (lower p) with
  | Some EmptyString => Some EmptyString
  | Some (String c _) =>
      if Ascii.eqb c "/" then Some (drop_chars (String.length mount) p) else None
  | None => None
  end.

Definition verb (m : method) : string :=
  match m with
  | GET => "GET" | HEAD => "HEAD" | POST => "POST" | OPTIONS => "OPTIONS"
  | OtherMethod => "UNKNOWN"
  end.

(** [app.get] routes also answer HEAD. *)
Definition is_read (m : method) : bool :=
  match m with GET | HEAD => true | _ => false end.

Definition is_post (m : method) : bool :=
  match m with POST => true | _ => false end.

Definition is_options (m : method) : bool :=
  match m with OPTIONS => true | _ => false end.

(** No layer answered: 404 with the final handler's page, which names the
    method and quotes the request target as it was sent. *)
Definition finalhandler (req : request) (res : response) : response :=
  let res := set_status 404 res in
  let res := setHeader "Content-Security-Policy" "default-src 'none'" res in
  let res := setHeader "X-Content-Type-Options" "nosniff" res in
  let res := setHeader "Content-Type" "text/html; charset=utf-8" res in
  Response (status res) (headers res) (ErrorPage (verb (req_method req))).

(** The automatic answer to OPTIONS on a path some route is registered for. *)
Definition options_reply (allow : string) (res : response) : response :=
  res_send allow (setHeader "Allow" allow res).

(** A HEAD request gets the headers of the GET answer and no body. *)
Definition finish (req : request) (res : response) : response :=
  match req_method req with
  | HEAD => Response (status res) (headers res) NoBody
  | _ => res
  end.

(** The request headers that make a request conditional or ask for a range. *)
Definition validators : list string :=
  ["if-none-match"; "if-modified-since"; "if-match"; "if-unmodified-since";
   "if-range"; "range"].

Definition unconditional (hs : list (string * string)) : bool :=
  forallb (λ h, negb (existsb (String.eqb (lower h.1)) validators)) hs.

Definition successful (res : response) : bool :=
  (200 <=? status res)%nat && (status res <? 300)%nat.

(** [res.send], [res.json] and the static mount look at the validators of a
    GET or HEAD request once the answer is made and its status is a success;
    what they answer then is the library's.  Every other answer goes out as it
    is. *)
Definition conditional (lib : library) (req : request) (res : response) : response :=
  if is_read (req_method req) && successful res && negb (unconditional (req_headers req))
  then revalidate lib req res
  else res.

End Express.

(** ** serve-static

    [express.static(root)] with its defaults, mounted on a flat directory.
    Only GET and HEAD are served.  The mount path itself, without a trailing
    slash, is redirected to the same path with the slash; the slash alone asks
    for [index.html]; [/name] asks for the entry [name] when the name is
    plain (not empty, no slash, no leading dot).  Any other path is normalised
    by the library first: the entry it then reaches is [resolve]'s.  What is
    not found falls through to the next layer ([None]).  The validators of a
    conditional or range request are looked at afterwards, in
    [Express.conditional]. *)

Module ServeStatic.

Definition is_dotfile (name : string) : bool :=
  match name with
  | String c _ => Ascii.eqb c "."
  | EmptyString => false
  end.

Definition servable (name : string) : bool :=
  negb (String.eqb name "") && negb (contains_char "/" name) && negb (is_dotfile name).

Definition redirect (req : request) (res : response) : response :=
  let loc := path req +:+ "/" in
  let res := set_status 301 res in
  let res := setHeader "Content-Type" "text/html; charset=UTF-8" res in
  let res := setHeader "Content-Security-Policy" "default-src 'none'" res in
  let res := setHeader "X-Content-Type-Options" "nosniff" res in
  let res := setHeader "Location" loc res in
  Response (status res) (headers res) (RedirectPage loc).

Definition send_file (mime_lookup : string → string) (name : string)
    (data : list byte) (res : response) : response :=
  let res := setHeader "Accept-Ranges" "bytes" res in
  let res := setHeader "Cache-Control" "public, max-age=0" res in
  let res := setHeader "Content-Type" (mime_lookup name) res in
  let res := setHeader "Content-Length" (pretty (length data)) res in
  Response (status res) (headers res) (FileBytes data).

Definition serve (mime_lookup : string → string) (resolve : string → option string)
    (req : request) (rest : string) (root : storage) (res : response)
  : option response :=
  if negb (Express.is_read (req_method req)) then None
  else
    match root with
    | None => None
    | Some entries =>
        match rest with
        | EmptyString => Some (redirect req res)
        | String _ name =>
            let target := if String.eqb name "" then "index.html" else name in
            match (if servable target then Some target else resolve name) with
            | Some found =>
                match entries !! found with
                | Some data => Some (send_file mime_lookup found data res)
                | None => None
                end
            | None => None
            end
        end
    end.

End ServeStatic.

(** ** Sample requests and directories *)

Definition sample_pdf : file_part :=
  FilePart "pdfFile" "a.pdf" "application/pdf" [x25; x50; x44; x46]%byte.

Definition sample_text : file_part :=
  FilePart "pdfFile" "notes.txt" "text/plain" [x68; x69]%byte.


Definition sample_scan : file_part :=
  FilePart "pdfFile" "scan.bin" "application/pdf" [x25; x50]%byte.

Definition sample_wrong_field : file_part :=
  FilePart "document" "a.pdf" "application/pdf" [x25; x50]%byte.

Definition post_upload (ps : list part) : request :=
  Request POST "/upload" [("Host", "vault.example.org")] (Multipart ps Complete).

(** An upload whose body ends inside the part [p]. *)
Definition post_cut (ps : list part) (p : part) : request :=
  Request POST "/upload" [("Host", "vault.example.org")]
          (Multipart ps (Cut p "Unexpected end of form")).

Definition get (p : string) : request :=
  Request GET p [("Host", "vault.example.org")] NotMultipart.

Definition sample_dir : gmap string (list byte) :=
  {[ "5-a.pdf" := [x01]%byte; "6-notes.txt" := [x02]%byte ]}.

Definition taken_dir : gmap string (list byte) := {[ "5-a.pdf" := [x01]%byte ]}.

Definition sample_mime (name : string) : string :=
  if endsWith name ".pdf" then "application/pdf" else "application/octet-stream".

(** A library of the kind the service may run on: the messages of multer 1,
    paths of at most 300 characters, a parser that raises its error twice,
    leading slashes and [./] segments dropped by the static mount, conditional
    requests answered 304 without a body. *)
Definition sample_messages (code : string) : string :=
  if String.eqb code "LIMIT_UNEXPECTED_FILE" then "Unexpected field"
  else if String.eqb code "MISSING_FIELD_NAME" then "Field name missing"
  else if String.eqb code "LIMIT_FIELD_KEY" then "Field name too long"
  else if String.eqb code "LIMIT_FIELD_VALUE" then "Field value too long"
  else "Upload error".

Definition sample_refusal (full : string) : option string :=
  if (300 <? String.length full)%nat then
    Some ("ENAMETOOLONG: name too long, open '" +:+ full +:+ "'")
  else None.

Fixpoint sample_resolve (name : string) : option string :=
  match name with
  | String "/" rest => sample_resolve rest
  | String "." (String "/" rest) => sample_resolve rest
  | _ => if ServeStatic.servable name then Some name else None
  end.

Definition sample_lib : library :=
  Library sample_messages sample_refusal true sample_resolve
          (λ _ res, Response 304 (headers res) NoBody).

(** ** server.js *)

Inductive port_value :=
| PortText (s : string)        (* the text of the environment variable *)
| PortNumber (n : Z).

Inductive process :=
| Exited                       (* an exception reached the top level *)
| Listening (d : disk).

Section Server.

(** [process.env.PORT], [__dirname], the table serve-static takes content
    types from, and what the libraries and the operating system decide. *)
Variable env_PORT : option string.
Variable dirname : string.
Variable mime_lookup : string → string.
Variable lib : library.

(** [const port = process.env.PORT || 3000]: an unset or empty variable is
    falsy. *)
Definition port : port_value :=
  match env_PORT with
  | Some (String c s) => PortText (String c s)
  | _ => PortNumber 3000
  end.

(** [${port}] inside a template literal *)
Definition port_text : string :=
  match port with
  | PortText s => s
  | PortNumber n => pretty n
  end.

Definition UPLOAD_DIR : string := path_join dirname "uploads".

(** [if (!fs.existsSync(UPLOAD_DIR)) fs.mkdirSync(UPLOAD_DIR)]; [None] when
    the exception of [mkdirSync] is thrown. *)
Definition bootstrap (d : disk) : option disk :=
  if negb (existsSync (uploads d)) then mkdirSync d else Some d.

(** [destination: (req, file, cb) => cb(null, UPLOAD_DIR)] *)
Definition storage_destination (f : file_part) : upload_error + string :=
  inr UPLOAD_DIR.

(** [filename: (req, file, cb) => cb(null, Date.now() + '-' + file.originalname)] *)
Definition storage_filename (now : Z) (f : file_part) : upload_error + string :=
  inr (pretty now +:+ "-" +:+ originalname f).

Definition fileFilter (f : file_part) : upload_error + bool :=
  if negb (String.eqb (mimetype f) "application/pdf") then
    inl (PlainError "Only PDF files are allowed!")
  else inr true.

(** [multer({storage, fileFilter}).single('pdfFile')]; [now] is what
    [Date.now()] answers while the request is handled. *)
Definition upload (now : Z) (b : upload_body) (d : storage) : Multer.outcome :=
  Multer.single lib UPLOAD_DIR
    (Multer.Options storage_destination (storage_filename now) fileFilter)
    "pdfFile" b d.

(** The CORS middleware. *)
Definition cors (res : response) : response :=
  let res := setHeader "Access-Control-Allow-Origin" "*" res in
  let res := setHeader "Access-Control-Allow-Methods" "GET, POST" res in
  setHeader "Access-Control-Allow-Headers" "Content-Type" res.

(** The public URL of a stored file: [http://localhost:${port}/pdfs/${name}]. *)
Definition file_url (name : string) : string :=
  "http://localhost:" +:+ port_text +:+ "/pdfs/" +:+ name.

Definition banner : string :=
  "<h1>Welcome to the PDF Vault Backend!</h1><p>The backend is running successfully. To use the vault, open your <code>index.html</code> file in the browser or access the API endpoints:</p><ul><li>POST /upload (for file uploads)</li><li>GET /pdfs (for the list of files)</li></ul>".

(** [app.get('/', ...)] *)
Definition root_handler (res : response) : response := res_send banner res.

(** The callback given to [upload] in [app.post('/upload', ...)]. *)
Definition upload_callback (err : option upload_error) (file : option uploaded_file)
    (res : response) : response :=
  match err with
  | Some (MulterError _ m) =>
      res_json (JObject [("success", JBool false);
                         ("message", JString ("Multer error: " +:+ m))])
               (set_status 500 res)
  | Some (PlainError m) =>
      res_json (JObject [("success", JBool false); ("message", JString m)])
               (set_status 400 res)
  | None =>
      match file with
      | None =>
          res_json (JObject [("success", JBool false);
                             ("message", JString "No file selected for upload.")])
                   (set_status 400 res)
      | Some f =>
          res_json (JObject [("success", JBool true);
                             ("message", JString "PDF uploaded successfully!");
                             ("filename", JString (filename f));
                             ("url", JString (file_url (filename f)))]) res
      end
  end.

(** [app.post('/upload', ...)] *)
Definition upload_handler (now : Z) (req : request) (res : response) (d : storage)
  : response * storage :=
  let out := upload now (req_body req) d in
  (upload_callback (Multer.error out) (Multer.file out) res, Multer.dir_after out).

Definition pdf_entry (file : string) : json :=
  JObject [("name", JString file); ("url", JString (file_url file))].

(** The callback given to [fs.readdir] in [app.get('/pdfs', ...)]; the
    [console.error] line of the error branch is not kept. *)
Definition readdir_callback (files : option (list string)) (res : response)
  : response :=
  match files with
  | None =>
      res_json (JObject [("success", JBool false);
                         ("message", JString "Failed to retrieve files.")])
               (set_status 500 res)
  | Some files =>
      let pdfList := pdf_entry <$> filter (λ file, endsWith file ".pdf" = true) files in
      res_json (JObject [("success", JBool true); ("pdfs", JArray pdfList)]) res
  end.

(** [app.get('/pdfs', ...)] *)
Definition list_handler (res : response) (d : storage) : response :=
  readdir_callback (readdir d) res.

(** The routes in the order they are registered, after the static mount has
    let the request through. *)
Definition router (now : Z) (req : request) (res : response) (d : storage)
  : response * storage :=
  let m := req_method req in
  let p := path req in
  if Express.is_read m && Express.route_matches "/" p then (root_handler res, d)
  else if Express.is_post m && Express.route_matches "/upload" p then
    upload_handler now req res d
  else if Express.is_read m && Express.route_matches "/pdfs" p then
    (list_handler res d, d)
  else if Express.is_options m && Express.route_matches "/upload" p then
    (Express.options_reply "POST" res, d)
  else if Express.is_options m
          && (Express.route_matches "/" p || Express.route_matches "/pdfs" p) then
    (Express.options_reply "GET,HEAD" res, d)
  else (Express.finalhandler req res, d).

(** The application: CORS headers first, then the static mount at [/pdfs],
    then the routes. *)
Definition app (now : Z) (req : request) (d : storage) : response * storage :=
  let res := cors fresh_response in
  let static :=
    match Express.mount_rest "/pdfs" (path req) with
    | Some rest => ServeStatic.serve mime_lookup (static_resolve lib) req rest d res
    | None => None
    end in
  let '(res, d') :=
    match static with
    | Some res => (res, d)
    | None => router now req res d
    end in
  (Express.finish req res, d').

(** The process: the bootstrap of the directory, then [app.listen]. *)
Definition start (d : disk) : process :=
  match bootstrap d with
  | Some d' => Listening d'
  | None => Exited
  end.

(** An error that escapes every listener while the request is processed:
    server.js installs no handler for it, and Node ends the process on it. *)
Definition uncaught_error (now : Z) (req : request) (d : storage) : option string :=
  if Express.is_post (req_method req) && Express.route_matches "/upload" (path req)
  then Multer.escaped (upload now (req_body req) d)
  else None.

(** A request handled by the listening process: what goes out for it and the
    directory it leaves.  [uncaught_error] tells the requests the process does
    not outlive. *)
Definition handle (p : process) (now : Z) (req : request)
  : option (response * process) :=
  match p with
  | Exited => None
  | Listening d =>
      let '(res, dir') := app now req (uploads d) in
      Some (Express.conditional lib req res, Listening (Disk (parent d) dir'))
  end.

(** ** Vocabulary of the properties *)

(** The failure object [{success: false, message}]. *)
Definition failure (message : string) : json :=
  JObject [("success", JBool false); ("message", JString message)].

(** The three headers the CORS middleware sets. *)
Definition cors_headers (res : response) : Prop :=
  getHeader "Access-Control-Allow-Origin" res = Some "*"
  ∧ getHeader "Access-Control-Allow-Methods" res = Some "GET, POST"
  ∧ getHeader "Access-Control-Allow-Headers" res = Some "Content-Type".

Definition is_cors_name (n : string) : bool :=
  same_header n "Access-Control-Allow-Origin"
  || same_header n "Access-Control-Allow-Methods"
  || same_header n "Access-Control-Allow-Headers".

(** A file part that names a file, and the parts the upload middleware passes
    over: complete text fields with a name, and file inputs left empty. *)
Definition named (f : file_part) : bool := negb (String.eqb (originalname f) "").

Definition ignorable (p : part) : bool :=
  match p with
  | PFile f => negb (String.eqb (fieldname f) "") && negb (named f)
  | PField name _ nameTruncated valueTruncated =>
      negb (String.eqb name "") && negb nameTruncated && negb valueTruncated
  end.

(** A file part the upload accepts: a named file in the field [pdfFile] that
    declares the type [application/pdf]. *)
Definition eligible (f : file_part) : Prop :=
  named f = true ∧ fieldname f = "pdfFile" ∧ mimetype f = "application/pdf".

Definition generated_name (now : Z) (f : file_part) : string :=
  pretty now +:+ "-" +:+ originalname f.

Definition stored_as (now : Z) (f : file_part) : uploaded_file :=
  UploadedFile f UPLOAD_DIR (generated_name now f)
               (path_join UPLOAD_DIR (generated_name now f)) (length (content f)).

Definition opts (now : Z) : Multer.options :=
  Multer.Options storage_destination (storage_filename now) fileFilter.

(** The parts of a body, the one it is cut in included. *)
Definition parts_of (b : upload_body) : list part :=
  match b with
  | NotMultipart => []
  | Multipart ps (Cut p _) => ps ++ [p]
  | Multipart ps _ => ps
  end.

(** How the events of some parts can change the middleware's state: not at
    all, or by writing one eligible file, which counts as stored when its
    bytes are [complete]. *)
Inductive run_shape (now : Z) (complete : bool) (ps : list part) (st : Multer.state)
  : Multer.state → Prop :=
| RunIdle st' :
    Multer.uploadedFiles st' = Multer.uploadedFiles st →
    Multer.dir st' = Multer.dir st →
    Multer.ops st' = Multer.ops st →
    (Multer.filesLeft st' ≤ Multer.filesLeft st)%nat →
    run_shape now complete ps st st'
| RunWrote f m st' :
    PFile f ∈ ps → eligible f →
    Multer.filesLeft st = 1 →
    Multer.dir st = Some m →
    Multer.filesLeft st' = 0 →
    Multer.uploadedFiles st'
    = (Multer.uploadedFiles st ++ if complete then [stored_as now f] else [])%list →
    Multer.dir st' = Some (<[generated_name now f := content f]> m) →
    Multer.ops st' = (Multer.ops st ++ [OpWrite (generated_name now f) (content f)])%list →
    run_shape now complete ps st st'.

Definition state_of (r : Multer.progress) : Multer.state :=
  match r with Multer.Go st => st | Multer.Abort _ st => st end.

(** The outcomes of [upload]: nothing written; one eligible file stored under
    its generated name; such a file stored and unlinked again because something
    after it ended the request with an error; or the received bytes of such a
    file written and left, the body having been cut in it. *)
Inductive upload_shape (now : Z) (b : upload_body) (d : storage)
  : Multer.outcome → Prop :=
| NothingStored err late :
    upload_shape now b d (Multer.Outcome err None d [] late)
| Stored f m :
    PFile f ∈ parts_of b → eligible f → d = Some m →
    upload_shape now b d
      (Multer.Outcome None (Some (stored_as now f))
         (Some (<[generated_name now f := content f]> m))
         [OpWrite (generated_name now f) (content f)] None)
| StoredThenRemoved e f m late :
    PFile f ∈ parts_of b → eligible f → d = Some m →
    upload_shape now b d
      (Multer.Outcome (Some e) None
         (Some (delete (generated_name now f)
                       (<[generated_name now f := content f]> m)))
         [OpWrite (generated_name now f) (content f);
          OpUnlink (generated_name now f)] late)
| WrittenAndLeft e f m late :
    PFile f ∈ parts_of b → eligible f → d = Some m →
    upload_shape now b d
      (Multer.Outcome (Some e) None
         (Some (<[generated_name now f := content f]> m))
         [OpWrite (generated_name now f) (content f)] late).

(** The JSON body of an accepted upload. *)
Definition accepted (name : string) : json :=
  JObject [("success", JBool true);
           ("message", JString "PDF uploaded successfully!");
           ("filename", JString name);
           ("url", JString (file_url name))].


(** The code of the error that refuses a text field: no name, or a name or a
    value beyond the parser's limits. *)
Definition field_refusal (name : string) (nameTruncated valueTruncated : bool)
  : option string :=
  if String.eqb name "" then Some "MISSING_FIELD_NAME"
  else if nameTruncated then Some "LIMIT_FIELD_KEY"
  else if valueTruncated then Some "LIMIT_FIELD_VALUE"
  else None.


(** The bytes stored under a name, if any. *)
Definition entry (d : storage) (name : string) : option (list byte) :=
  d ≫= λ entries, entries !! name.

(** Names the static mount can serve must be plain: no slash, no leading dot. *)
Definition plain (s : string) : Prop :=
  contains_char "/" s = false ∧ ServeStatic.is_dotfile s = false.

(** Requests handled one after another, each answered before the next one
    arrives; every request comes with the clock reading of its handling.  A
    process that has exited answers nothing. *)
Fixpoint serve_all (p : process) (reqs : list (Z * request))
  : list response * process :=
  match reqs with
  | [] => ([], p)
  | (now, req) :: rest =>
      match handle p now req with
      | Some (res, p') =>
          let '(answers, p'') := serve_all p' rest in (res :: answers, p'')
      | None => ([], p)
      end
  end.

(** The requests the upload handler receives. *)
Definition to_upload (req : request) : bool :=
  Express.is_post (req_method req) && Express.route_matches "/upload" (path req).

Definition is_digit (c : ascii) : bool :=
  let n := nat_of_ascii c in (48 <=? n)%nat && (n <=? 57)%nat.

Fixpoint all_digits (s : string) : bool :=
  match s with
  | EmptyString => true
  | String c s' => is_digit c && all_digits s'
  end.

(** * Properties *)

(** ** Strings and headers *)

Lemma endsWith_spec s suffix :
  endsWith s suffix = true ↔ ∃ pre, s = pre +:+ suffix.
Proof.
  induction s as [|c s IH]; cbn [endsWith].
  - destruct (String.eqb_spec "" suffix) as [<-|Hne].
    + split; [by exists ""|done].
    + split; [done|]. intros [pre Hpre].
      destruct pre as [|a pre]; [by destruct Hne | inversion Hpre].
  - destruct (String.eqb_spec (String c s) suffix) as [<-|Hne].
    + split; [by exists ""|done].
    + rewrite IH. split.
      * intros [pre ->]. by exists (String c pre).
      * intros [pre Hpre]. destruct pre as [|c' pre].
        -- by destruct Hne.
        -- inversion Hpre; subst. by exists pre.
Qed.

Lemma same_header_true a b : same_header a b = true ↔ lower a = lower b.
Proof. apply String.eqb_eq. Qed.

Lemma get_set_header_other n n' v hs :
  same_header n' n = false →
  get_header_in n (set_header_in n' v hs) = get_header_in n hs.
Proof.
  intros Hne. induction hs as [|[k w] hs IH]; simpl.
  - by rewrite Hne.
  - destruct (same_header k n') eqn:Hk; simpl.
    + apply same_header_true in Hk. unfold same_header in *.
      rewrite Hk. by rewrite Hne.
    + destruct (same_header k n); [done|apply IH].
Qed.

Lemma get_set_header_same n v hs :
  get_header_in n (set_header_in n v hs) = Some v.
Proof.
  assert (Hrefl : same_header n n = true) by by apply same_header_true.
  induction hs as [|[k w] hs IH]; simpl.
  - by rewrite Hrefl.
  - destruct (same_header k n) eqn:Hk; simpl.
    + by rewrite Hrefl.
    + by rewrite Hk.
Qed.

(** ** The CORS headers survive every later layer *)

Lemma cors_setHeader n v res :
  is_cors_name n = false → cors_headers res → cors_headers (setHeader n v res).
Proof.
  unfold is_cors_name, cors_headers, getHeader, setHeader. simpl.
  intros Hn (H1 & H2 & H3).
  apply orb_false_iff in Hn as [Hn Hn3]. apply orb_false_iff in Hn as [Hn1 Hn2].
  by rewrite !get_set_header_other.
Qed.

Lemma cors_set_status n res : cors_headers res → cors_headers (set_status n res).
Proof. done. Qed.

Lemma cors_payload res b :
  cors_headers res → cors_headers (Response (status res) (headers res) b).
Proof. done. Qed.

Lemma cors_set_type v res :
  cors_headers res → cors_headers (set_type_if_unset v res).
Proof.
  intros H. unfold set_type_if_unset.
  destruct (getHeader "Content-Type" res); [done|]. by apply cors_setHeader.
Qed.

Lemma cors_res_json v res : cors_headers res → cors_headers (res_json v res).
Proof. intros H. unfold res_json. by apply cors_payload, cors_set_type. Qed.

Lemma cors_res_send v res : cors_headers res → cors_headers (res_send v res).
Proof. intros H. unfold res_send. by apply cors_payload, cors_set_type. Qed.


Create HintDb cors discriminated.
Hint Resolve cors_set_status cors_payload cors_res_json cors_res_send : cors.
Hint Extern 1 (cors_headers (setHeader _ _ _)) =>
  apply cors_setHeader; [reflexivity|] : cors.









(** ** The upload middleware, part by part *)

Lemma run_shape_weaken now c ps ps' st st' :
  ps ⊆ ps' → run_shape now c ps st st' → run_shape now c ps' st st'.
Proof.
  intros Hsub [st1 ? ? ? ?|f m st1 Hin ? ? ? ? ? ? ?].
  - by apply RunIdle.
  - eapply RunWrote; eauto.
Qed.

Lemma run_shape_cons now c p ps st st' :
  run_shape now c ps st st' → run_shape now c (p :: ps) st st'.
Proof. apply run_shape_weaken. set_solver. Qed.

Lemma on_file_shape now c f st :
  (Multer.filesLeft st ≤ 1)%nat →
  run_shape now c [PFile f] st
    (state_of (Multer.on_file lib UPLOAD_DIR (opts now) "pdfFile" c f st)).
Proof.
  intros Hleft. unfold Multer.on_file.
  destruct (String.eqb (fieldname f) "") eqn:Hnamed; [by apply RunIdle|].
  destruct (String.eqb (originalname f) "") eqn:Hname; [by apply RunIdle|].
  destruct (String.eqb_spec (fieldname f) "pdfFile") as [Hfield|Hfield]; simpl;
    [|by apply RunIdle].
  destruct (Nat.eqb_spec (Multer.filesLeft st) 0) as [Hz|Hnz]; [by apply RunIdle|].
  unfold fileFilter.
  destruct (String.eqb_spec (mimetype f) "application/pdf") as [Hmime|Hmime]; simpl;
    [|apply RunIdle; simpl; auto with lia].
  unfold Multer.handleFile. simpl. rewrite String.eqb_refl. simpl.
  destruct (Multer.dir st) as [m|] eqn:Hdir; simpl;
    [|apply RunIdle; simpl; auto with lia].
  destruct (open_refusal lib _) as [message|]; simpl;
    [apply RunIdle; simpl; auto with lia|].
  assert (Hel : eligible f).
  { unfold eligible, named. by rewrite Hname. }
  assert (Hin : PFile f ∈ [PFile f]) by apply list_elem_of_here.
  destruct c; simpl; apply (RunWrote now _ _ st f m); simpl;
    rewrite ?app_nil_r; try done; lia.
Qed.

Lemma run_exhausted now c ps st :
  Multer.filesLeft st = 0 →
  ∀ st', run_shape now c ps st st' →
  Multer.uploadedFiles st' = Multer.uploadedFiles st
  ∧ Multer.dir st' = Multer.dir st ∧ Multer.ops st' = Multer.ops st
  ∧ Multer.filesLeft st' = 0.
Proof.
  intros Hz st' [st1 ? ? ? ?|f m st1 ? ? Hone ? ? ? ? ?]; [|lia].
  repeat split; auto with lia.
Qed.

Lemma on_field_shape now c name nt vt st :
  run_shape now c [] st (state_of (Multer.on_field lib name nt vt st)).
Proof. unfold Multer.on_field. repeat case_match; by apply RunIdle. Qed.

Lemma run_shape_ok now ps :
  ∀ st, (Multer.filesLeft st ≤ 1)%nat →
  run_shape now true ps st
    (state_of (Multer.run lib UPLOAD_DIR (opts now) "pdfFile" ps st)).
Proof.
  induction ps as [|p ps IH]; intros st Hleft; simpl.
  - by apply RunIdle.
  - assert (Hstep : run_shape now true [p] st
                      (state_of (Multer.on_part lib UPLOAD_DIR (opts now) "pdfFile" p st))).
    { destruct p as [f|name value nt vt]; simpl.
      - by apply on_file_shape.
      - eapply run_shape_weaken; [|apply on_field_shape]. set_solver. }
    destruct (Multer.on_part lib UPLOAD_DIR (opts now) "pdfFile" p st) as [st1|e st1];
      simpl in Hstep.
    + inversion Hstep as [st2 Hup Hdir Hops Hfl|g m st2 Hin Hel Hone Hdir Hz Hup Hdir' Hops];
        subst st2.
      * assert (Hleft1 : (Multer.filesLeft st1 ≤ 1)%nat) by lia.
        specialize (IH st1 Hleft1).
        inversion IH as [st3 Hup3 Hdir3 Hops3 Hfl3|g m st3 Hin Hel Hone Hdir3 Hz Hup3 Hdir3' Hops3];
          subst st3.
        -- apply RunIdle; [congruence..|lia].
        -- eapply RunWrote; eauto; try congruence.
           ++ by apply list_elem_of_further.
           ++ lia.
      * assert (Hleft1 : (Multer.filesLeft st1 ≤ 1)%nat) by lia.
        specialize (IH st1 Hleft1).
        destruct (run_exhausted now true ps st1 Hz _ IH) as (Hup3 & Hdir3 & Hops3 & Hz3).
        apply list_elem_of_singleton in Hin. subst p.
        eapply RunWrote; eauto; try congruence. by apply list_elem_of_here.
    + eapply run_shape_weaken; [|exact Hstep].
      intros x Hx. apply list_elem_of_singleton in Hx as ->. apply list_elem_of_here.
Qed.

Lemma remove_ext l : ∀ st st',
  Multer.dir st' = Multer.dir st → Multer.ops st' = Multer.ops st →
  Multer.dir (foldl (λ st f, Multer.perform (OpUnlink (filename f)) st) st' l)
  = Multer.dir (foldl (λ st f, Multer.perform (OpUnlink (filename f)) st) st l)
  ∧ Multer.ops (foldl (λ st f, Multer.perform (OpUnlink (filename f)) st) st' l)
    = Multer.ops (foldl (λ st f, Multer.perform (OpUnlink (filename f)) st) st l).
Proof.
  induction l as [|f l IH]; intros st st' Hdir Hops; [done|].
  simpl. apply IH; unfold Multer.perform; simpl; congruence.
Qed.

(** The end of a request by an error looks at the files stored, the directory
    and the operations so far, at nothing else of the state. *)
Lemma abort_ext e late st st' :
  Multer.uploadedFiles st' = Multer.uploadedFiles st →
  Multer.dir st' = Multer.dir st → Multer.ops st' = Multer.ops st →
  Multer.abortWithError e late st' = Multer.abortWithError e late st.
Proof.
  intros Hup Hdir Hops. unfold Multer.abortWithError, Multer.removeUploadedFiles.
  rewrite Hup. destruct (remove_ext (Multer.uploadedFiles st) st st' Hdir Hops) as [-> ->].
  done.
Qed.

(** What the end of the request makes of a state the parts have left. *)
Lemma abort_shape now b d e late st :
  run_shape now true (parts_of b) (Multer.State 1 [] d [] None) st →
  upload_shape now b d (Multer.abortWithError e late st).
Proof.
  destruct st as [fl up dr os fd].
  intros Hrun.
  inversion Hrun as [st1 Hup Hdir Hops Hfl|f m st1 Hin Hel Hone Hdir Hz Hup Hdir' Hops];
    simpl in *; subst.
  - apply NothingStored.
  - by eapply StoredThenRemoved.
Qed.

Lemma upload_shape_ok now b d : upload_shape now b d (upload now b d).
Proof.
  destruct b as [|ps ending]; [apply NothingStored|].
  unfold upload, Multer.single. fold (opts now).
  assert (Hleft : (Multer.filesLeft (Multer.State 1 [] d [] None) ≤ 1)%nat)
    by (simpl; lia).
  pose proof (run_shape_ok now ps _ Hleft) as Hrun.
  assert (Hsub : ps ⊆ parts_of (Multipart ps ending)).
  { destruct ending; simpl; set_solver. }
  apply (run_shape_weaken _ _ _ _ _ _ Hsub) in Hrun.
  destruct (Multer.run lib UPLOAD_DIR (opts now) "pdfFile" ps (Multer.State 1 [] d [] None))
    as [st|e st]; simpl in Hrun; [|by apply abort_shape].
  destruct ending as [|message|p message].
  - destruct (Multer.failed st) as [e|] eqn:Hfailed; [by apply abort_shape|].
    destruct st as [fl up dr os fd].
    inversion Hrun as [st1 Hup Hdir Hops Hfl|f m st1 Hin Hel Hone Hdir Hz Hup Hdir' Hops];
      simpl in *; subst.
    + apply NothingStored.
    + by eapply Stored.
  - by apply abort_shape.
  - destruct p as [f|name value nt vt]; simpl; [|by apply abort_shape].
    assert (Hleft' : (Multer.filesLeft st ≤ 1)%nat).
    { inversion Hrun; simpl in *; lia. }
    pose proof (on_file_shape now false f st Hleft') as Hlast.
    set (r := Multer.on_file lib UPLOAD_DIR (opts now) "pdfFile" false f st) in *.
    assert (Hshape : ∀ e late, upload_shape now (Multipart ps (Cut (PFile f) message)) d
                                 (Multer.abortWithError e late (state_of r))).
    { intros e late.
      inversion Hlast as [st1 Hup Hdir Hops Hfl|g m st1 Hin Hel Hone Hdir Hz Hup Hdir' Hops];
        subst st1.
      - rewrite (abort_ext e late st (state_of r)) by done. by apply abort_shape.
      - apply list_elem_of_singleton in Hin. injection Hin as <-.
        inversion Hrun as [st1 Hup0 Hdir0 Hops0 Hfl0|g' m' st1 Hin0 Hel0 Hone0 Hdir0 Hz0 Hup0 Hdir0' Hops0];
          subst st1; [|lia].
        simpl in Hup0, Hdir0, Hops0.
        destruct (state_of r) as [fl up dr os fd]. simpl in *.
        rewrite Hup0 in Hup. rewrite Hops0 in Hops. rewrite Hdir0 in Hdir. subst.
        unfold Multer.abortWithError, Multer.removeUploadedFiles. simpl.
        eapply WrittenAndLeft; [|done..].
        apply elem_of_app. right. apply list_elem_of_here. }
    destruct r as [st'|e st']; apply Hshape.
Qed.

Lemma run_ignorable now ps st :
  forallb ignorable ps = true →
  Multer.run lib UPLOAD_DIR (opts now) "pdfFile" ps st = Multer.Go st.
Proof.
  induction ps as [|p ps IH]; simpl; [done|].
  intros [Hp Hps]%andb_prop. destruct p as [f|name value nt vt]; simpl in *.
  - unfold Multer.on_file, named in *.
    apply andb_prop in Hp as [Hfield%negb_true_iff Hname%negb_true_iff].
    apply negb_false_iff in Hname. rewrite Hfield, Hname. by apply IH.
  - unfold Multer.on_field.
    apply andb_prop in Hp as [[Hn%negb_true_iff ->%negb_true_iff]%andb_prop
                                ->%negb_true_iff].
    rewrite Hn. by apply IH.
Qed.

Lemma run_app_ignorable now pre ps st :
  forallb ignorable pre = true →
  Multer.run lib UPLOAD_DIR (opts now) "pdfFile" (pre ++ ps) st
  = Multer.run lib UPLOAD_DIR (opts now) "pdfFile" ps st.
Proof.
  induction pre as [|p pre IH]; simpl; [done|].
  intros [Hp Hpre]%andb_prop.
  replace (Multer.on_part lib UPLOAD_DIR (opts now) "pdfFile" p st) with (Multer.Go st);
    [by apply IH|].
  pose proof (run_ignorable now [p] st) as Hone. simpl in Hone.
  rewrite Hp in Hone. specialize (Hone eq_refl).
  by destruct (Multer.on_part lib UPLOAD_DIR (opts now) "pdfFile" p st).
Qed.


(** A malformed body after parts that are passed over: the parser's error. *)
Lemma upload_parse_error now ps message d :
  forallb ignorable ps = true →
  upload now (Multipart ps (Malformed message)) d
  = Multer.Outcome (Some (PlainError message)) None d [] None.
Proof.
  intros Hps. unfold upload, Multer.single. fold (opts now).
  by rewrite run_ignorable.
Qed.

(** The first file of the request sits in the expected field and declares
    another type than PDF: the filter's error. *)
Lemma upload_wrong_type now pre f post ending d :
  forallb ignorable pre = true →
  named f = true → fieldname f = "pdfFile" → mimetype f ≠ "application/pdf" →
  upload now (Multipart (pre ++ PFile f :: post) ending) d
  = Multer.Outcome (Some (PlainError "Only PDF files are allowed!")) None d [] None.
Proof.
  intros Hpre Hname Hfield Hmime. unfold upload, Multer.single. fold (opts now).
  rewrite run_app_ignorable by done. simpl.
  unfold Multer.on_file, named in *. apply negb_true_iff in Hname.
  rewrite Hname, Hfield. simpl. unfold fileFilter.
  by destruct (String.eqb_spec (mimetype f) "application/pdf").
Qed.

(** ** Routing *)

Lemma static_skips_writes resolve req rest d res :
  Express.is_read (req_method req) = false →
  ServeStatic.serve mime_lookup resolve req rest d res = None.
Proof. intros Hm. unfold ServeStatic.serve. by rewrite Hm. Qed.

(** A POST to [/upload] reaches the upload handler with the CORS headers set. *)
Lemma app_upload now req d :
  req_method req = POST → Express.route_matches "/upload" (path req) = true →
  app now req d = upload_handler now req (cors fresh_response) d.
Proof.
  intros Hm Hroute. unfold app.
  assert (Hstatic : match Express.mount_rest "/pdfs" (path req) with
                    | Some rest =>
                        ServeStatic.serve mime_lookup (static_resolve lib) req rest d
                                          (cors fresh_response)
                    | None => None
                    end = None).
  { destruct (Express.mount_rest _ _); [|done].
    apply static_skips_writes. by rewrite Hm. }
  rewrite Hstatic. unfold router, Express.finish. rewrite Hm, Hroute. simpl.
  reflexivity.
Qed.

Lemma upload_callback_status err f :
  let res := upload_callback err f (cors fresh_response) in
  match err, f with
  | Some (MulterError _ m), _ =>
      status res = 500
      ∧ payload res = Json (JObject [("success", JBool false);
                                     ("message", JString ("Multer error: " +:+ m))])
  | Some (PlainError m), _ =>
      status res = 400
      ∧ payload res = Json (JObject [("success", JBool false); ("message", JString m)])
  | None, None =>
      status res = 400
      ∧ payload res = Json (JObject [("success", JBool false);
                                     ("message", JString "No file selected for upload.")])
  | None, Some f => status res = 200 ∧ payload res = Json (accepted (filename f))
  end.
Proof. destruct err as [[code m|m]|], f; by split. Qed.

Lemma upload_response now req d :
  req_method req = POST → Express.route_matches "/upload" (path req) = true →
  (app now req d).1
  = upload_callback (Multer.error (upload now (req_body req) d))
                    (Multer.file (upload now (req_body req) d)) (cors fresh_response)
  ∧ (app now req d).2 = Multer.dir_after (upload now (req_body req) d).
Proof. intros Hm Hroute. by rewrite app_upload. Qed.

(** What an answer with status 200 to a POST on [/upload] tells. *)
Lemma upload_accepted_inv now req d :
  req_method req = POST → Express.route_matches "/upload" (path req) = true →
  status (app now req d).1 = 200 →
  ∃ f m,
    PFile f ∈ parts_of (req_body req) ∧ eligible f ∧ d = Some m
    ∧ payload (app now req d).1 = Json (accepted (generated_name now f))
    ∧ (app now req d).2 = Some (<[generated_name now f := content f]> m)
    ∧ Multer.performed (upload now (req_body req) d)
      = [OpWrite (generated_name now f) (content f)].
Proof.
  intros Hm Hroute Hok.
  destruct (upload_response now req d Hm Hroute) as [Hres Hdir].
  rewrite Hres in Hok. rewrite Hres, Hdir. clear Hres Hdir.
  destruct (upload_shape_ok now (req_body req) d)
    as [err late|f m Hin Hel Hd|e f m late Hin Hel Hd|e f m late Hin Hel Hd];
    simpl in *.
  - by destruct err as [[]|].
  - by exists f, m.
  - by destruct e.
  - by destruct e.
Qed.

(** Every failure of the upload is answered with the failure object and the
    status 400 or 500. *)
Lemma upload_failure_answer err :
  let res := upload_callback err None (cors fresh_response) in
  (status res = 400 ∨ status res = 500)
  ∧ ∃ m, payload res = Json (JObject [("success", JBool false); ("message", JString m)]).
Proof. destruct err as [[code m|m]|]; simpl; eauto. Qed.

(** ** The upload route *)

Lemma parts_of_complete ps ending p : p ∈ ps → p ∈ parts_of (Multipart ps ending).
Proof.
  intros Hin. destruct ending as [| |q message]; simpl; [done|done|].
  apply elem_of_app. by left.
Qed.

Lemma run_no_pdf now ps :
  (∀ f, PFile f ∈ ps → named f = true → mimetype f ≠ "application/pdf") →
  ∀ st,
  match Multer.run lib UPLOAD_DIR (opts now) "pdfFile" ps st with
  | Multer.Go st' => st' = st ∧ ∀ f, PFile f ∈ ps → named f = false
  | Multer.Abort _ st' =>
      Multer.uploadedFiles st' = Multer.uploadedFiles st
      ∧ Multer.dir st' = Multer.dir st ∧ Multer.ops st' = Multer.ops st
  end.
Proof.
  induction ps as [|p ps IH]; intros Hall st; simpl.
  - split; [done|]. intros f Hin. by apply elem_of_nil in Hin.
  - assert (Hrest : ∀ f, PFile f ∈ ps → named f = true → mimetype f ≠ "application/pdf").
    { intros f Hin. apply Hall. by apply list_elem_of_further. }
    destruct p as [f|name value nt vt]; simpl.
    + unfold Multer.on_file.
      destruct (String.eqb (fieldname f) ""); [done|].
      destruct (String.eqb (originalname f) "") eqn:Hname.
      * specialize (IH Hrest st).
        destruct (Multer.run _ _ _ _ ps st) as [st'|e st']; [|done].
        destruct IH as [-> Hnone]. split; [done|].
        intros g [[= ->]|Hin]%elem_of_cons; [|by apply Hnone].
        unfold named. by rewrite Hname.
      * destruct (negb (String.eqb (fieldname f) "pdfFile")
                  || (Multer.filesLeft st =? 0)%nat); [done|].
        cbn [Multer.opt_fileFilter opts]. unfold fileFilter.
        assert (Hmime : mimetype f ≠ "application/pdf").
        { apply Hall; [apply list_elem_of_here|]. unfold named. by rewrite Hname. }
        by destruct (String.eqb_spec (mimetype f) "application/pdf").
    + unfold Multer.on_field.
      destruct (String.eqb name ""); [done|]. destruct nt; [done|]. destruct vt; [done|].
      specialize (IH Hrest st).
      destruct (Multer.run _ _ _ _ ps st) as [st'|e st']; [|done].
      destruct IH as [-> Hnone]. split; [done|].
      intros g [[=]|Hin]%elem_of_cons. by apply Hnone.
Qed.

(** A named file that declares another type than PDF ends the request when it
    is announced, whether its bytes follow in full or not. *)
Lemma on_file_no_pdf now c f st :
  named f = true → mimetype f ≠ "application/pdf" →
  ∃ e st', Multer.on_file lib UPLOAD_DIR (opts now) "pdfFile" c f st = Multer.Abort e st'
           ∧ Multer.uploadedFiles st' = Multer.uploadedFiles st
           ∧ Multer.dir st' = Multer.dir st ∧ Multer.ops st' = Multer.ops st.
Proof.
  intros Hname Hmime. unfold Multer.on_file, named in *.
  apply negb_true_iff in Hname. rewrite Hname.
  destruct (String.eqb (fieldname f) ""); [by eexists _, _|].
  destruct (negb (String.eqb (fieldname f) "pdfFile")
            || (Multer.filesLeft st =? 0)%nat); [by eexists _, _|].
  cbn [Multer.opt_fileFilter opts]. unfold fileFilter.
  destruct (String.eqb_spec (mimetype f) "application/pdf"); [done|]. by eexists _, _.
Qed.

Lemma abort_nothing e late st d :
  Multer.uploadedFiles st = [] → Multer.dir st = d → Multer.ops st = [] →
  Multer.abortWithError e late st = Multer.Outcome (Some e) None d [] late.
Proof.
  destruct st as [fl up dr os fd]. simpl. by intros -> -> ->.
Qed.

(** Every file of the request declares another type than PDF: the request
    ends with an error before the storage engine is asked to write. *)
Lemma upload_no_pdf now b d :
  (∃ f, PFile f ∈ parts_of b ∧ named f = true) →
  (∀ f, PFile f ∈ parts_of b → named f = true → mimetype f ≠ "application/pdf") →
  ∃ e late, upload now b d = Multer.Outcome (Some e) None d [] late.
Proof.
  intros (f & Hin & Hname) Hall.
  destruct b as [|ps ending]; [by apply elem_of_nil in Hin|].
  unfold upload, Multer.single. fold (opts now).
  assert (Hps : ∀ g, PFile g ∈ ps → named g = true → mimetype g ≠ "application/pdf").
  { intros g Hg. apply Hall. by apply parts_of_complete. }
  pose proof (run_no_pdf now ps Hps (Multer.State 1 [] d [] None)) as Hrun.
  destruct (Multer.run _ _ _ _ ps _) as [st'|e st'].
  - destruct Hrun as [-> Hnone]. destruct ending as [|message|p message]; simpl in *.
    + rewrite (Hnone f Hin) in Hname. done.
    + by eexists _, _.
    + destruct p as [g|name value nt vt]; simpl; [|by eexists _, _].
      destruct (named g) eqn:Hg.
      * assert (Hmime : mimetype g ≠ "application/pdf").
        { apply Hall; [|done]. apply elem_of_app. right. apply list_elem_of_here. }
        destruct (on_file_no_pdf now false g (Multer.State 1 [] d [] None) Hg Hmime)
          as (e & st' & -> & Hup & Hdir & Hops).
        eexists _, _. by apply abort_nothing.
      * apply elem_of_app in Hin as [Hin|Hin].
        { rewrite (Hnone f Hin) in Hname. done. }
        apply list_elem_of_singleton in Hin. injection Hin as ->. congruence.
  - destruct Hrun as (Hup & Hdir & Hops). eexists _, _. by apply abort_nothing.
Qed.

(** C2: an upload whose file parts declare another type than
    application/pdf is refused before anything is written: the answer is
    [{success:false, message}] with a failure status, no file operation is
    performed and the directory is left as it was.  When the file is the first
    of the request and sits in the field [pdfFile], the status is 400 and the
    message is the filter's. *)
Theorem non_pdf_upload_rejected now req d :
  req_method req = POST → Express.route_matches "/upload" (path req) = true →
  (∃ f, PFile f ∈ parts_of (req_body req) ∧ named f = true) →
  (∀ f, PFile f ∈ parts_of (req_body req) → named f = true →
        mimetype f ≠ "application/pdf") →
  let res := (app now req d).1 in
  ((status res = 400 ∨ status res = 500)
   ∧ ∃ m, payload res
          = Json (JObject [("success", JBool false); ("message", JString m)]))
  ∧ Multer.performed (upload now (req_body req) d) = []
  ∧ (app now req d).2 = d
  ∧ (∀ pre f post ending,
       req_body req = Multipart (pre ++ PFile f :: post) ending →
       forallb ignorable pre = true →
       named f = true → fieldname f = "pdfFile" →
       status res = 400
       ∧ payload res
         = Json (JObject [("success", JBool false);
                          ("message", JString "Only PDF files are allowed!")])).
Proof.
  intros Hm Hroute Hsome Hall res.
  destruct (upload_response now req d Hm Hroute) as [Hres Hdir].
  fold res in Hres. rewrite Hdir.
  destruct (upload_no_pdf now (req_body req) d Hsome Hall) as (e & late & He).
  split; [|split; [|split]].
  - rewrite Hres, He. apply upload_failure_answer.
  - by rewrite He.
  - by rewrite He.
  - intros pre f post ending Hbody Hpre Hname Hfield.
    assert (Hmime : mimetype f ≠ "application/pdf").
    { apply Hall; [|done]. rewrite Hbody. apply parts_of_complete.
      apply elem_of_app. right. apply list_elem_of_here. }
    rewrite Hres, Hbody. by rewrite upload_wrong_type.
Qed.



(** C4: an accepted upload stores the file under the name made of the clock
    reading in milliseconds, a hyphen and the original file name, and answers
    with [success:true], a message, that name and the URL
    [http://localhost:<port>/pdfs/<name>]. *)
Theorem accepted_upload_response now req d :
  req_method req = POST → Express.route_matches "/upload" (path req) = true →
  status (app now req d).1 = 200 →
  ∃ f m,
    PFile f ∈ parts_of (req_body req) ∧ eligible f ∧ d = Some m
    ∧ let name := pretty now +:+ "-" +:+ originalname f in
      payload (app now req d).1
      = Json (JObject [("success", JBool true);
                       ("message", JString "PDF uploaded successfully!");
                       ("filename", JString name);
                       ("url", JString ("http://localhost:" +:+ port_text
                                        +:+ "/pdfs/" +:+ name))])
      ∧ (app now req d).2 = Some (<[name := content f]> m).
Proof.
  intros Hm Hroute Hok.
  destruct (upload_accepted_inv now req d Hm Hroute Hok)
    as (f & m & Hin & Hel & Hd & Hpay & Hdir & _).
  by exists f, m.
Qed.

(** ** Generated names are names the static mount serves *)

Lemma contains_char_app c s t :
  contains_char c (s +:+ t) = contains_char c s || contains_char c t.
Proof.
  induction s as [|a s IH]; [done|].
  change (String a s +:+ t) with (String a (s +:+ t)). cbn [contains_char].
  by rewrite IH, orb_assoc.
Qed.

Lemma plain_digit x s : plain s → plain (String (pretty_N_char x) s).
Proof.
  intros [Hs _]. unfold plain. cbn [contains_char ServeStatic.is_dotfile].
  rewrite Hs. unfold pretty_N_char. by repeat case_match.
Qed.

Lemma pretty_N_go_plain x : ∀ s, plain s → plain (pretty_N_go x s).
Proof.
  induction (N.lt_wf_0 x) as [x _ IH]; intros s Hs.
  assert (x = 0 ∨ 0 < x)%N as [->|Hpos] by lia.
  - by rewrite pretty_N_go_0.
  - rewrite pretty_N_go_step by done. apply IH.
    + by apply N.div_lt.
    + by apply plain_digit.
Qed.

Lemma pretty_N_go_nonempty x : ∀ s, (0 < x)%N ∨ s ≠ "" → pretty_N_go x s ≠ "".
Proof.
  induction (N.lt_wf_0 x) as [x _ IH]; intros s Hor.
  assert (x = 0 ∨ 0 < x)%N as [->|Hpos] by lia.
  - rewrite pretty_N_go_0. destruct Hor as [?|?]; [lia|done].
  - rewrite pretty_N_go_step by done. apply IH.
    + by apply N.div_lt.
    + by right.
Qed.

Lemma pretty_Z_plain (z : Z) :
  contains_char "/" (pretty z) = false
  ∧ ServeStatic.is_dotfile (pretty z) = false ∧ pretty z ≠ "".
Proof.
  assert (Hpos : ∀ p : positive,
             plain (pretty_N_go (N.pos p) "") ∧ pretty_N_go (N.pos p) "" ≠ "").
  { intros p. split; [by apply pretty_N_go_plain|].
    apply pretty_N_go_nonempty. left. lia. }
  destruct z as [|p|p]; [done| |].
  - destruct (Hpos p) as [[H1 H2] H3]. done.
  - destruct (Hpos p) as [[H1 H2] H3]. split; [|done].
    change (pretty (Z.neg p)) with ("-" +:+ pretty_N_go (N.pos p) "").
    rewrite contains_char_app. by rewrite H1.
Qed.

Lemma generated_name_servable now f :
  contains_char "/" (originalname f) = false →
  ServeStatic.servable (generated_name now f) = true.
Proof.
  intros Horig. destruct (pretty_Z_plain now) as (Hslash & Hdot & Hne).
  unfold ServeStatic.servable, generated_name.
  rewrite !contains_char_app, Hslash, Horig.
  destruct (pretty now) as [|c rest] eqn:Hp; [done|].
  simpl in *. by rewrite Hdot.
Qed.

(** ** The listing route and the static mount *)

Lemma ascii_lower_slash c : ascii_lower c = "/"%char → c = "/"%char.
Proof.
  destruct c as [b0 b1 b2 b3 b4 b5 b6 b7].
  destruct b0, b1, b2, b3, b4, b5, b6, b7; vm_compute; congruence.
Qed.

Lemma route_pdfs_cases p :
  Express.route_matches "/pdfs" p = true → lower p = "/pdfs" ∨ lower p = "/pdfs/".
Proof.
  unfold Express.route_matches. cbn [String.eqb Ascii.eqb Bool.eqb].
  intros [H|H]%orb_prop; apply String.eqb_eq in H; auto.
Qed.

Lemma lower_pdfs_slash p : lower p = "/pdfs/" → Express.drop_chars 5 p = "/".
Proof.
  destruct p as [|c1 [|c2 [|c3 [|c4 [|c5 [|c6 [|c7 p]]]]]]]; try done.
  simpl. intros [= _ _ _ _ _ H6]. by rewrite (ascii_lower_slash c6 H6).
Qed.

Lemma mount_rest_listing p :
  Express.route_matches "/pdfs" p = true →
  Express.mount_rest "/pdfs" p = Some "" ∨ Express.mount_rest "/pdfs" p = Some "/".
Proof.
  intros Hroute. unfold Express.mount_rest.
  destruct (route_pdfs_cases _ Hroute) as [Hp|Hp]; rewrite Hp.
  - by left.
  - right. change (String.length "/pdfs") with 5%nat.
    by rewrite (lower_pdfs_slash _ Hp).
Qed.

(** What a GET on the listing path meets: with the directory present, the
    static mount answers first on the bare path (a redirect to the path with
    a slash) and, on the path with the slash, when the directory holds an
    [index.html]; otherwise the listing handler answers. *)
Lemma app_listing now req d :
  req_method req = GET → Express.route_matches "/pdfs" (path req) = true →
  (app now req d).2 = d
  ∧ match d with
    | None => (app now req d).1 = list_handler (cors fresh_response) None
    | Some m =>
        (app now req d).1 = ServeStatic.redirect req (cors fresh_response)
        ∨ (∃ data, m !! "index.html" = Some data
                   ∧ (app now req d).1
                     = ServeStatic.send_file mime_lookup "index.html" data
                                             (cors fresh_response))
        ∨ (app now req d).1 = list_handler (cors fresh_response) (Some m)
    end.
Proof.
  intros Hm Hroute.
  assert (Hrouter : router now req (cors fresh_response) d
                    = (list_handler (cors fresh_response) d, d)).
  { unfold router. rewrite Hm, Hroute. unfold Express.route_matches.
    destruct (route_pdfs_cases _ Hroute) as [-> | ->]; reflexivity. }
  unfold app, Express.finish. rewrite Hm, Hrouter.
  destruct (mount_rest_listing _ Hroute) as [-> | ->];
    unfold ServeStatic.serve; rewrite Hm; simpl.
  - destruct d as [m|]; simpl; auto.
  - destruct d as [m|]; simpl; [|done].
    change (ServeStatic.servable "index.html") with true. cbn match.
    destruct (m !! "index.html") as [data|] eqn:Hidx; simpl; [|by auto].
    split; [done|]. right. left. by exists data.
Qed.

(** A GET on [/pdfs/name] for a plain name present in the directory is
    answered by the static mount with the stored bytes. *)
Lemma app_fetch now hs b m name data :
  ServeStatic.servable name = true → m !! name = Some data →
  app now (Request GET ("/pdfs/" +:+ name) hs b) (Some m)
  = (ServeStatic.send_file mime_lookup name data (cors fresh_response), Some m).
Proof.
  intros Hplain Hlookup. unfold app, Express.mount_rest. simpl.
  unfold ServeStatic.serve. simpl.
  assert (Hne : String.eqb name "" = false).
  { unfold ServeStatic.servable in Hplain. by destruct (String.eqb name ""). }
  change ("" +:+ name) with name. by rewrite Hne, Hplain, Hlookup.
Qed.

Lemma res_json_status v res :
  status (res_json v res) = status res ∧ payload (res_json v res) = Json v.
Proof.
  unfold res_json, set_type_if_unset. by destruct (getHeader "Content-Type" res).
Qed.

Lemma readdir_names (m : gmap string (list byte)) n :
  n ∈ (map_to_list m).*1 ↔ is_Some (m !! n).
Proof.
  rewrite list_elem_of_fmap. split.
  - intros ([k v] & -> & Hin). apply elem_of_map_to_list in Hin. by exists v.
  - intros [v Hv]. exists (n, v). split; [done|]. by apply elem_of_map_to_list.
Qed.

(** What an answer with status 200 and a JSON body to a GET on the listing
    path tells: the listing handler produced it from the directory. *)
Lemma listing_answer now req m v :
  req_method req = GET → Express.route_matches "/pdfs" (path req) = true →
  status (app now req (Some m)).1 = 200 →
  payload (app now req (Some m)).1 = Json v →
  v = JObject [("success", JBool true);
               ("pdfs",
                JArray (pdf_entry
                          <$> filter (λ file, endsWith file ".pdf" = true)
                                     (map_to_list m).*1))].
Proof.
  intros Hm Hroute Hok Hv.
  destruct (app_listing now req (Some m) Hm Hroute) as [_ [Hr|[(data & _ & Hr)|Hr]]];
    rewrite Hr in Hok, Hv; [done|done|].
  by injection Hv as <-.
Qed.

(** C5: a successful GET /pdfs returns exactly the directory entries whose
    name ends in [.pdf], each once, as [{name, url}] with the URL built as
    in the upload answer; an entry without the suffix is not listed, and the
    static mount still serves it by name (any plain name, so every name the
    upload generates from an original name without a slash). *)
Theorem listing_contents now req m :
  req_method req = GET → Express.route_matches "/pdfs" (path req) = true →
  status (app now req (Some m)).1 = 200 →
  ∀ v, payload (app now req (Some m)).1 = Json v →
  let names := filter (λ file, endsWith file ".pdf" = true) (map_to_list m).*1 in
  let item n := JObject [("name", JString n);
                         ("url", JString ("http://localhost:" +:+ port_text
                                          +:+ "/pdfs/" +:+ n))] in
  v = JObject [("success", JBool true); ("pdfs", JArray (item <$> names))]
  ∧ NoDup names
  ∧ (∀ n, n ∈ names ↔ is_Some (m !! n) ∧ ∃ pre, n = pre +:+ ".pdf")
  ∧ (∀ n data, m !! n = Some data → endsWith n ".pdf" = false →
       (n ∉ names)
       ∧ ((ServeStatic.servable n = true
           ∨ ∃ t f, n = generated_name t f
                    ∧ contains_char "/" (originalname f) = false) →
          let fetch := app now (Request GET ("/pdfs/" +:+ n) (req_headers req)
                                        NotMultipart) (Some m) in
          status fetch.1 = 200 ∧ payload fetch.1 = FileBytes data
          ∧ fetch.2 = Some m)).
Proof.
  intros Hm Hroute Hok v Hv names item.
  rewrite (listing_answer now req m v Hm Hroute Hok Hv).
  assert (Hmem : ∀ n, n ∈ names ↔ is_Some (m !! n) ∧ ∃ pre, n = pre +:+ ".pdf").
  { intros n. unfold names. rewrite list_elem_of_filter, readdir_names, endsWith_spec.
    tauto. }
  split; [done|]. split; [|split; [done|]].
  - apply NoDup_filter, NoDup_fst_map_to_list.
  - intros n data Hn Hsuffix. split.
    + intros [_ Hpdf]%Hmem. apply endsWith_spec in Hpdf. congruence.
    + intros Hplain.
      assert (Hserv : ServeStatic.servable n = true).
      { destruct Hplain as [?|(t & f & -> & Hf)]; [done|].
        by apply generated_name_servable. }
      by rewrite (app_fetch now _ _ m n data Hserv Hn).
Qed.

(** The revalidation layer leaves an answer outside the 2xx range, an answer
    to a method other than GET and HEAD, and the answer to a request without
    validators, as they are. *)
Lemma conditional_unsuccessful req res :
  Express.successful res = false → Express.conditional lib req res = res.
Proof.
  intros H. unfold Express.conditional. rewrite H. by rewrite andb_false_r.
Qed.

Lemma conditional_unconditional req res :
  Express.unconditional (req_headers req) = true →
  Express.conditional lib req res = res.
Proof.
  intros H. unfold Express.conditional. rewrite H. by rewrite andb_false_r.
Qed.

Lemma conditional_write req res :
  Express.is_read (req_method req) = false → Express.conditional lib req res = res.
Proof. intros H. unfold Express.conditional. by rewrite H. Qed.

(** C6: when the upload directory cannot be read, GET /pdfs answers 500 with
    [{success:false, message}], and the process goes on listening. *)
Theorem listing_failure_is_500 now req par :
  req_method req = GET → Express.route_matches "/pdfs" (path req) = true →
  readdir None = None
  ∧ (∀ res0, status (readdir_callback None res0) = 500
             ∧ payload (readdir_callback None res0)
               = Json (failure "Failed to retrieve files."))
  ∧ status (app now req None).1 = 500
  ∧ payload (app now req None).1
    = Json (JObject [("success", JBool false);
                     ("message", JString "Failed to retrieve files.")])
  ∧ getHeader "Content-Type" (app now req None).1
    = Some "application/json; charset=utf-8"
  ∧ handle (Listening (Disk par None)) now req
    = Some ((app now req None).1, Listening (Disk par None)).
Proof.
  intros Hm Hroute.
  destruct (app_listing now req None Hm Hroute) as [Hdir Hres].
  split; [done|]. split; [intros res0; apply res_json_status|]. rewrite Hres.
  split; [done|]. split; [done|]. split; [done|].
  unfold handle. simpl. destruct (app now req None) as [r d'] eqn:Happ.
  simpl in Hdir, Hres. subst. by rewrite conditional_unsuccessful.
Qed.

(** ** Effects of an upload on the directory *)

(** What an accepted upload does to the directory: it performs exactly one
    write, under the generated name of one file part of the request; when no
    entry of that name exists the directory gains exactly that entry, and when
    one exists its bytes are replaced and the set of names stays as it was. *)
Theorem accepted_upload_effect now req d :
  req_method req = POST → Express.route_matches "/upload" (path req) = true →
  status (app now req d).1 = 200 →
  ∃ f m, PFile f ∈ parts_of (req_body req) ∧ d = Some m
    ∧ let name := pretty now +:+ "-" +:+ originalname f in
      (app now req d).2 = Some (<[name := content f]> m)
      ∧ Multer.performed (upload now (req_body req) d) = [OpWrite name (content f)]
      ∧ (m !! name = None →
           dom (<[name := content f]> m) = {[name]} ∪ dom m
           ∧ (name ∉ dom m)
           ∧ size (<[name := content f]> m) = S (size m))
      ∧ (is_Some (m !! name) →
           dom (<[name := content f]> m) = dom m
           ∧ size (<[name := content f]> m) = size m).
Proof.
  intros Hm Hroute Hok.
  destruct (upload_accepted_inv now req d Hm Hroute Hok)
    as (f & m & Hin & _ & Hd & _ & Hdir & Hops).
  exists f, m. split; [done|]. split; [done|]. unfold generated_name in *. simpl.
  split; [done|]. split; [done|]. split.
  - intros Hfree. split; [by apply dom_insert_L|]. split; [by apply not_elem_of_dom|].
    by apply map_size_insert_None.
  - intros [data Hdata]. split.
    + apply dom_insert_lookup_L. by exists data.
    + by apply map_size_insert_Some.
Qed.

(** ** Start-up *)

(** C8: at start-up the directory is looked for and, when absent, created one
    level deep; when that creation fails (the parent is missing or refuses
    the new entry) the process ends and answers no request. *)
Theorem startup_creates_directory_or_exits (d : disk) :
  match uploads d, parent d with
  | Some _, _ => start d = Listening d
  | None, ParentWritable =>
      mkdirSync d = Some (Disk ParentWritable (Some ∅))
      ∧ start d = Listening (Disk ParentWritable (Some ∅))
  | None, _ =>
      mkdirSync d = None ∧ start d = Exited
      ∧ ∀ now req, handle (start d) now req = None
  end
  ∧ ∀ d', start d = Listening d' →
      existsSync (uploads d') = true ∧ parent d' = parent d
      ∧ ∀ now req, is_Some (handle (start d) now req).
Proof.
  assert (Hserve : ∀ d0 now req, is_Some (handle (Listening d0) now req)).
  { intros d0 now req. unfold handle. by destruct (app now req (uploads d0)). }
  destruct d as [par [m|]]; unfold start, bootstrap, mkdirSync; simpl.
  - split; [done|]. intros d' [= <-]. repeat split.
    intros now req. apply (Hserve (Disk par (Some m))).
  - destruct par; simpl; (split; [done|]); intros d' Hd'; try done.
    injection Hd' as <-. repeat split.
    intros now req. apply (Hserve (Disk ParentWritable (Some ∅))).
Qed.

(** ** The retrieval URL *)

(** C10: in the answer to an accepted upload and in every listing entry the
    URL is the text [http://localhost:], the configured port (the
    environment's PORT, 3000 when it is unset or empty), [/pdfs/] and the file
    name; the answer does not depend on the headers of the request. *)
Theorem urls_point_to_localhost now req d :
  let configured :=
    match env_PORT with
    | Some (String c s) => String c s
    | _ => "3000"
    end in
  let url name := "http://localhost:" +:+ configured +:+ "/pdfs/" +:+ name in
  let item n := JObject [("name", JString n); ("url", JString (url n))] in
  (req_method req = POST → Express.route_matches "/upload" (path req) = true →
   status (app now req d).1 = 200 →
   ∃ name, payload (app now req d).1
           = Json (JObject [("success", JBool true);
                            ("message", JString "PDF uploaded successfully!");
                            ("filename", JString name);
                            ("url", JString (url name))]))
  ∧ (req_method req = GET → Express.route_matches "/pdfs" (path req) = true →
     status (app now req d).1 = 200 →
     ∀ v, payload (app now req d).1 = Json v →
     ∃ names, v = JObject [("success", JBool true); ("pdfs", JArray (item <$> names))])
  ∧ (∀ hs, app now (Request (req_method req) (path req) hs (req_body req)) d
           = app now req d).
Proof.
  intros configured url item.
  assert (Hport : port_text = configured).
  { unfold port_text, port, configured. by destruct env_PORT as [[|c s]|]. }
  assert (Hurl : ∀ n, file_url n = url n).
  { intros n. unfold file_url, url. by rewrite Hport. }
  split; [|split].
  - intros Hm Hroute Hok.
    destruct (upload_accepted_inv now req d Hm Hroute Hok)
      as (f & m & _ & _ & _ & Hpay & _).
    eexists. rewrite Hpay. unfold accepted. by rewrite Hurl.
  - intros Hm Hroute Hok v Hv. destruct d as [m|].
    + rewrite (listing_answer now req m v Hm Hroute Hok Hv).
      eexists. do 5 f_equal. apply list_fmap_ext.
      intros _ n _. unfold pdf_entry, item. by rewrite Hurl.
    + destruct (app_listing now req None Hm Hroute) as [_ Hr].
      by rewrite Hr in Hok.
  - intros hs. by destruct req.
Qed.

(** * Further properties of the handlers *)

(** ** Which requests change the directory *)

Lemma is_post_POST m : Express.is_post m = true → m = POST.
Proof. by destruct m. Qed.

Lemma to_upload_spec req :
  to_upload req = true →
  req_method req = POST ∧ Express.route_matches "/upload" (path req) = true.
Proof.
  unfold to_upload. intros [Hm Hroute]%andb_prop. split; [by apply is_post_POST|done].
Qed.

Lemma router_not_upload now req res d :
  to_upload req = false → (router now req res d).2 = d.
Proof.
  unfold to_upload, router. intros Hnot. rewrite Hnot. by repeat case_match.
Qed.

Lemma app_not_upload now req d : to_upload req = false → (app now req d).2 = d.
Proof.
  intros Hnot. unfold app.
  destruct (match Express.mount_rest "/pdfs" (path req) with
            | Some rest =>
                ServeStatic.serve mime_lookup (static_resolve lib) req rest d
                                  (cors fresh_response)
            | None => None
            end) as [r|]; [done|].
  pose proof (router_not_upload now req (cors fresh_response) d Hnot) as Hr.
  by destruct (router now req (cors fresh_response) d).
Qed.

Lemma upload_keeps_presence now b d :
  existsSync (Multer.dir_after (upload now b d)) = existsSync d.
Proof.
  by destruct (upload_shape_ok now b d)
    as [err late|f m ? ? ->|e f m late ? ? ->|e f m late ? ? ->].
Qed.

Lemma upload_frame now b d k :
  (∀ f, PFile f ∈ parts_of b → k ≠ generated_name now f) →
  entry (Multer.dir_after (upload now b d)) k = entry d k.
Proof.
  intros Hk.
  destruct (upload_shape_ok now b d)
    as [err late|f m Hin _ ->|e f m late Hin _ ->|e f m late Hin _ ->]; simpl.
  - done.
  - apply lookup_insert_ne. intros Heq. by apply (Hk f).
  - rewrite delete_insert_eq. apply lookup_delete_ne. intros Heq. by apply (Hk f).
  - apply lookup_insert_ne. intros Heq. by apply (Hk f).
Qed.

Lemma app_keeps_presence now req d : existsSync (app now req d).2 = existsSync d.
Proof.
  destruct (to_upload req) eqn:Hup.
  - apply to_upload_spec in Hup as [Hm Hroute].
    destruct (upload_response now req d Hm Hroute) as [_ ->].
    apply upload_keeps_presence.
  - by rewrite app_not_upload.
Qed.

Lemma app_frame now req d k :
  (to_upload req = true →
   ∀ f, PFile f ∈ parts_of (req_body req) → k ≠ generated_name now f) →
  entry (app now req d).2 k = entry d k.
Proof.
  intros Hk. destruct (to_upload req) eqn:Hup.
  - destruct (to_upload_spec req Hup) as [Hm Hroute].
    destruct (upload_response now req d Hm Hroute) as [_ ->].
    apply upload_frame. by apply Hk.
  - by rewrite app_not_upload.
Qed.

Lemma serve_all_listening d reqs :
  ∃ d', (serve_all (Listening d) reqs).2 = Listening d'
        ∧ parent d' = parent d
        ∧ existsSync (uploads d') = existsSync (uploads d)
        ∧ length (serve_all (Listening d) reqs).1 = length reqs.
Proof.
  revert d. induction reqs as [|[now req] reqs IH]; intros d.
  - by exists d.
  - cbn [serve_all handle].
    pose proof (app_keeps_presence now req (uploads d)) as Hpres.
    destruct (app now req (uploads d)) as [res dir'] eqn:Happ. simpl in Hpres.
    destruct (IH (Disk (parent d) dir')) as (d' & Hd' & Hpar & Hex & Hlen).
    destruct (serve_all (Listening (Disk (parent d) dir')) reqs) as [answers p''].
    simpl in *. exists d'. repeat split; try done; congruence.
Qed.

(** ** The text of a clock reading *)

Lemma pretty_N_char_digit x : is_digit (pretty_N_char x) = true.
Proof. unfold pretty_N_char. by repeat case_match. Qed.

Lemma pretty_N_go_digits x : ∀ s, all_digits s = true → all_digits (pretty_N_go x s) = true.
Proof.
  induction (N.lt_wf_0 x) as [x _ IH]; intros s Hs.
  assert (x = 0 ∨ 0 < x)%N as [->|Hpos] by lia.
  - by rewrite pretty_N_go_0.
  - rewrite pretty_N_go_step by done. apply IH; [by apply N.div_lt|].
    cbn [all_digits]. by rewrite pretty_N_char_digit.
Qed.

(** The decimal text of an integer: digits, after a minus sign when negative. *)
Lemma pretty_Z_shape (z : Z) :
  ∃ ds, all_digits ds = true ∧ ds ≠ ""
        ∧ (pretty z = ds ∨ pretty z = String "-" ds).
Proof.
  assert (Hpos : ∀ p : positive,
             all_digits (pretty_N_go (N.pos p) "") = true
             ∧ pretty_N_go (N.pos p) "" ≠ "").
  { intros p. split; [by apply pretty_N_go_digits|].
    apply pretty_N_go_nonempty. left. lia. }
  destruct z as [|p|p].
  - exists "0". split; [done|]. split; [done|]. by left.
  - exists (pretty_N_go (N.pos p) ""). destruct (Hpos p) as [Hd Hne].
    split; [done|]. split; [done|]. by left.
  - exists (pretty_N_go (N.pos p) ""). destruct (Hpos p) as [Hd Hne].
    split; [done|]. split; [done|]. by right.
Qed.

Lemma digits_avoid c s : is_digit c = false → all_digits s = true → contains_char c s = false.
Proof.
  intros Hc. induction s as [|a s IH]; [done|]. cbn [all_digits contains_char].
  intros [Ha Hs]%andb_prop. rewrite (IH Hs), orb_false_r.
  apply Ascii.eqb_neq. intros ->. congruence.
Qed.

Lemma pretty_Z_avoids c (z : Z) :
  is_digit c = false → c ≠ "-"%char → contains_char c (pretty z) = false.
Proof.
  intros Hc Hdash. destruct (pretty_Z_shape z) as (ds & Hds & _ & [-> | ->]).
  - by apply digits_avoid.
  - cbn [contains_char]. rewrite (digits_avoid c ds Hc Hds), orb_false_r.
    by apply Ascii.eqb_neq.
Qed.

(** Two texts made of digits, a hyphen and a rest agree only part by part. *)
Lemma digits_dash_inj u v s t :
  all_digits u = true → all_digits v = true →
  u +:+ String "-" s = v +:+ String "-" t → u = v ∧ s = t.
Proof.
  revert v. induction u as [|a u IH]; intros [|b v] Hu Hv Heq.
  - by injection Heq as ->.
  - injection Heq as <- _. by apply andb_prop in Hv as [Hv _].
  - injection Heq as -> _. by apply andb_prop in Hu as [Hu _].
  - injection Heq as -> Heq.
    apply andb_prop in Hu as [_ Hu]. apply andb_prop in Hv as [_ Hv].
    destruct (IH v Hu Hv Heq) as [-> ->]. done.
Qed.

Lemma digits_head ds rest : all_digits ds = true → ds ≠ "" → String "-" rest ≠ ds.
Proof.
  destruct ds as [|c ds]; [done|]. intros [Hc _]%andb_prop _ [= <- _]. done.
Qed.

Lemma generated_name_parts (a b : Z) (s t : string) :
  pretty a +:+ "-" +:+ s = pretty b +:+ "-" +:+ t → a = b ∧ s = t.
Proof.
  destruct (pretty_Z_shape a) as (da & Hda & Hna & Ha).
  destruct (pretty_Z_shape b) as (db & Hdb & Hnb & Hb).
  intros Heq.
  assert (Hgoal : pretty a = pretty b ∧ s = t).
  { destruct Ha as [Ha|Ha], Hb as [Hb|Hb]; rewrite Ha, Hb in *.
    - destruct (digits_dash_inj da db s t Hda Hdb Heq) as [-> ->]. done.
    - destruct da as [|c da]; [done|]. injection Heq as -> _.
      by apply andb_prop in Hda as [Hda _].
    - destruct db as [|c db]; [done|]. injection Heq as <- _.
      by apply andb_prop in Hdb as [Hdb _].
    - injection Heq as Heq.
      destruct (digits_dash_inj da db s t Hda Hdb Heq) as [-> ->]. done. }
  destruct Hgoal as [Hp ->]. split; [|done]. by apply (inj pretty).
Qed.


(** X4: the file name callback gives two uploads the same name only when both
    the clock reading and the original name are the same. *)
Theorem storage_filename_inj now now' f f' :
  storage_filename now f = storage_filename now' f' →
  now = now' ∧ originalname f = originalname f'.
Proof.
  unfold storage_filename. intros [= Heq]. by apply generated_name_parts.
Qed.

(** X1: the directory changes only through a POST to /upload that carries a
    named file in the field [pdfFile] declaring application/pdf; every other
    request (the root page, the listing, a fetch through the static mount, an
    unknown path, a refused upload without such a part) leaves it as it was. *)
Theorem directory_changes_only_by_upload now req d :
  (app now req d).2 ≠ d →
  req_method req = POST
  ∧ Express.route_matches "/upload" (path req) = true
  ∧ ∃ f, PFile f ∈ parts_of (req_body req) ∧ eligible f.
Proof.
  intros Hchanged. destruct (to_upload req) eqn:Hup.
  - destruct (to_upload_spec req Hup) as [Hm Hroute]. split; [done|]. split; [done|].
    destruct (upload_response now req d Hm Hroute) as [_ Hdir].
    rewrite Hdir in Hchanged. clear Hdir.
    destruct (upload_shape_ok now (req_body req) d)
      as [err late|f m Hin Hel _|e f m late Hin Hel _|e f m late Hin Hel _];
      [done|by exists f..].
  - by rewrite app_not_upload in Hchanged.
Qed.

(** X3: through any sequence of requests, what is stored under a name stays
    as it is as long as no file part sent to the upload handler is given that
    name. *)
Theorem entry_persists d reqs k :
  (∀ now req f, (now, req) ∈ reqs → to_upload req = true →
                PFile f ∈ parts_of (req_body req) → k ≠ generated_name now f) →
  ∃ d', (serve_all (Listening d) reqs).2 = Listening d'
        ∧ entry (uploads d') k = entry (uploads d) k.
Proof.
  revert d. induction reqs as [|[now req] reqs IH]; intros d Hk.
  - by exists d.
  - cbn [serve_all handle].
    assert (Hstep : entry (app now req (uploads d)).2 k = entry (uploads d) k).
    { apply app_frame. intros Hup f Hin. apply (Hk now req f); [|done..].
      apply list_elem_of_here. }
    destruct (app now req (uploads d)) as [res dir'] eqn:Happ. simpl in Hstep.
    destruct (IH (Disk (parent d) dir')) as (d' & Hd' & Hentry).
    { intros now' req' f Hin. apply Hk. by apply list_elem_of_further. }
    destruct (serve_all (Listening (Disk (parent d) dir')) reqs) as [answers p''].
    simpl in *. exists d'. split; [done|]. congruence.
Qed.

(** X2: no handler removes or recreates the upload directory.  On the disk
    that the handlers leave after any sequence of requests, the upload
    directory that the bootstrap found or made is still present and its parent
    is as it was, so a start on that disk finds the directory and takes the
    disk as it is. *)
Theorem started_service_keeps_directory d0 d reqs d' :
  start d0 = Listening d →
  (serve_all (start d0) reqs).2 = Listening d' →
  existsSync (uploads d') = true
  ∧ parent d' = parent d0
  ∧ bootstrap d' = Some d'.
Proof.
  intros Hstart Hend. rewrite Hstart in Hend.
  assert (Hd : existsSync (uploads d) = true ∧ parent d = parent d0).
  { unfold start, bootstrap, mkdirSync in Hstart.
    destruct d0 as [par [m|]]; simpl in Hstart; [by injection Hstart as <-|].
    destruct par; simpl in Hstart; try done. by injection Hstart as <-. }
  destruct Hd as [Hex Hpar].
  destruct (serve_all_listening d reqs) as (d1 & Hd1 & Hpar' & Hex' & _).
  rewrite Hd1 in Hend. injection Hend as <-.
  split; [congruence|]. split; [congruence|].
  unfold bootstrap. rewrite Hex', Hex. done.
Qed.

(** ** Uploads followed by other requests *)

Lemma endsWith_after a b rest :
  contains_char "." a = false →
  endsWith (a +:+ b) (String "." rest) = endsWith b (String "." rest).
Proof.
  induction a as [|c a IH]; [done|]. cbn [contains_char].
  intros [Hc Ha]%orb_false_elim. apply Ascii.eqb_neq in Hc.
  change (String c a +:+ b) with (String c (a +:+ b)). cbn [endsWith].
  destruct (String.eqb_spec (String c (a +:+ b)) (String "." rest)) as [Heq|_].
  - injection Heq as -> _. done.
  - by apply IH.
Qed.

Lemma endsWith_generated now f :
  endsWith (generated_name now f) ".pdf" = endsWith (originalname f) ".pdf".
Proof.
  unfold generated_name. rewrite endsWith_after by by apply pretty_Z_avoids.
  by apply (endsWith_after "-" (originalname f)).
Qed.

Lemma pdf_entry_listed n (names : list string) :
  pdf_entry n ∈ pdf_entry <$> names ↔ n ∈ names.
Proof.
  rewrite list_elem_of_fmap. split.
  - intros (n' & [= ->] & Hin). done.
  - intros Hin. by exists n.
Qed.

(** X5: of two accepted uploads handled one after the other, the second is
    stored under its generated name; the first is still stored with its own
    bytes when the two differ in clock reading or in original name, and holds
    the bytes of the second when they differ in neither. *)
Theorem two_accepted_uploads now1 req1 now2 req2 d :
  req_method req1 = POST → Express.route_matches "/upload" (path req1) = true →
  req_method req2 = POST → Express.route_matches "/upload" (path req2) = true →
  status (app now1 req1 d).1 = 200 →
  status (app now2 req2 (app now1 req1 d).2).1 = 200 →
  ∃ f1 f2,
    PFile f1 ∈ parts_of (req_body req1) ∧ PFile f2 ∈ parts_of (req_body req2)
    ∧ payload (app now1 req1 d).1
      = Json (accepted (pretty now1 +:+ "-" +:+ originalname f1))
    ∧ payload (app now2 req2 (app now1 req1 d).2).1
      = Json (accepted (pretty now2 +:+ "-" +:+ originalname f2))
    ∧ entry (app now2 req2 (app now1 req1 d).2).2
            (pretty now2 +:+ "-" +:+ originalname f2)
      = Some (content f2)
    ∧ (now1 ≠ now2 ∨ originalname f1 ≠ originalname f2 →
       entry (app now2 req2 (app now1 req1 d).2).2
             (pretty now1 +:+ "-" +:+ originalname f1)
       = Some (content f1))
    ∧ (now1 = now2 → originalname f1 = originalname f2 →
       entry (app now2 req2 (app now1 req1 d).2).2
             (pretty now1 +:+ "-" +:+ originalname f1)
       = Some (content f2)).
Proof.
  intros Hm1 Hr1 Hm2 Hr2 Hok1 Hok2.
  destruct (upload_accepted_inv now1 req1 d Hm1 Hr1 Hok1)
    as (f1 & m & Hin1 & _ & -> & Hpay1 & Hd1 & _).
  rewrite Hd1 in *.
  destruct (upload_accepted_inv now2 req2 _ Hm2 Hr2 Hok2)
    as (f2 & m1 & Hin2 & _ & [= <-] & Hpay2 & Hd2 & _).
  rewrite Hd2. exists f1, f2. unfold generated_name in *. simpl.
  repeat split; try done.
  - apply lookup_insert_eq.
  - intros Hdiff. rewrite lookup_insert_ne; [apply lookup_insert_eq|].
    intros Heq. apply generated_name_parts in Heq as [-> Hn]. by destruct Hdiff.
  - intros -> ->. apply lookup_insert_eq.
Qed.

(** X6: after an accepted upload, a GET on [/pdfs/] followed by the name given
    in the answer, sent without validators (no [Range], no [If-...] header), is
    answered 200 by the static mount with exactly the uploaded bytes and the
    content type of the name, and leaves the directory as it is.  The original
    name is a base name, as the parser gives it: no slash and no backslash. *)
Theorem upload_then_fetch now req par d now' hs b :
  req_method req = POST → Express.route_matches "/upload" (path req) = true →
  status (app now req d).1 = 200 →
  Express.unconditional hs = true →
  ∃ f,
    PFile f ∈ parts_of (req_body req)
    ∧ payload (app now req d).1
      = Json (JObject [("success", JBool true);
                       ("message", JString "PDF uploaded successfully!");
                       ("filename", JString (pretty now +:+ "-" +:+ originalname f));
                       ("url", JString ("http://localhost:" +:+ port_text +:+ "/pdfs/"
                                        +:+ pretty now +:+ "-" +:+ originalname f))])
    ∧ (contains_char "/" (originalname f) = false →
       contains_char "092" (originalname f) = false →
       ∃ res,
         handle (Listening (Disk par (app now req d).2)) now'
                (Request GET ("/pdfs/" +:+ pretty now +:+ "-" +:+ originalname f) hs b)
         = Some (res, Listening (Disk par (app now req d).2))
         ∧ status res = 200
         ∧ payload res = FileBytes (content f)
         ∧ getHeader "Content-Type" res
           = Some (mime_lookup (pretty now +:+ "-" +:+ originalname f))).
Proof.
  intros Hm Hroute Hok Hhs.
  destruct (upload_accepted_inv now req d Hm Hroute Hok)
    as (f & m & Hin & _ & -> & Hpay & Hd & _).
  exists f. split; [done|]. split; [done|]. intros Hplain _.
  rewrite Hd. fold (generated_name now f). unfold handle. cbn [uploads parent].
  rewrite (app_fetch now' hs b _ (generated_name now f) (content f)).
  - rewrite conditional_unconditional by done. by eexists.
  - by apply generated_name_servable.
  - apply lookup_insert_eq.
Qed.

(** X7: after an accepted upload, the listing handler lists the stored file
    exactly when its original name ends in [.pdf]: the upload is decided by the
    declared type, the listing by the name. *)
Theorem upload_listed_iff_pdf_suffix now req d res0 :
  req_method req = POST → Express.route_matches "/upload" (path req) = true →
  status (app now req d).1 = 200 →
  ∃ f items,
    PFile f ∈ parts_of (req_body req)
    ∧ payload (app now req d).1 = Json (accepted (pretty now +:+ "-" +:+ originalname f))
    ∧ payload (list_handler res0 (app now req d).2)
      = Json (JObject [("success", JBool true); ("pdfs", JArray items)])
    ∧ (pdf_entry (pretty now +:+ "-" +:+ originalname f) ∈ items
       ↔ endsWith (originalname f) ".pdf" = true).
Proof.
  intros Hm Hroute Hok.
  destruct (upload_accepted_inv now req d Hm Hroute Hok)
    as (f & m & Hin & _ & -> & Hpay & Hd & _).
  rewrite Hd. unfold list_handler, readdir_callback, readdir.
  eexists f, _. change (pretty now +:+ "-" +:+ originalname f) with (generated_name now f).
  split; [done|]. split; [done|]. split; [apply res_json_status|].
  rewrite pdf_entry_listed, list_elem_of_filter, readdir_names, endsWith_generated.
  rewrite lookup_insert_eq. split; [tauto|]. intros Hpdf. split; [done|by eexists].
Qed.

(** ** A request with one file *)

Lemma upload_unexpected_field now pre f post ending d :
  forallb ignorable pre = true → named f = true →
  fieldname f ≠ "" → fieldname f ≠ "pdfFile" →
  upload now (Multipart (pre ++ PFile f :: post) ending) d
  = Multer.Outcome
      (Some (MulterError "LIMIT_UNEXPECTED_FILE"
                         (multer_message lib "LIMIT_UNEXPECTED_FILE")))
      None d [] None.
Proof.
  intros Hpre Hname Hfn Hfield. unfold upload, Multer.single. fold (opts now).
  rewrite run_app_ignorable by done. simpl.
  unfold Multer.on_file, named in *. apply negb_true_iff in Hname. rewrite Hname.
  destruct (String.eqb_spec (fieldname f) ""); [done|].
  by destruct (String.eqb_spec (fieldname f) "pdfFile").
Qed.

Lemma upload_no_field_name now pre f post ending d :
  forallb ignorable pre = true → fieldname f = "" →
  upload now (Multipart (pre ++ PFile f :: post) ending) d
  = Multer.Outcome
      (Some (MulterError "MISSING_FIELD_NAME" (multer_message lib "MISSING_FIELD_NAME")))
      None d [] None.
Proof.
  intros Hpre Hfn. unfold upload, Multer.single. fold (opts now).
  rewrite run_app_ignorable by done. simpl.
  unfold Multer.on_file. by rewrite Hfn.
Qed.

Lemma upload_refused_field now pre name value nt vt post ending d code :
  forallb ignorable pre = true → field_refusal name nt vt = Some code →
  upload now (Multipart (pre ++ PField name value nt vt :: post) ending) d
  = Multer.Outcome (Some (MulterError code (multer_message lib code))) None d [] None.
Proof.
  intros Hpre Hcode. unfold upload, Multer.single. fold (opts now).
  rewrite run_app_ignorable by done. simpl.
  unfold Multer.on_field, field_refusal in *.
  destruct (String.eqb name ""); [by injection Hcode as <-|].
  destruct nt; [by injection Hcode as <-|].
  destruct vt; [by injection Hcode as <-|]. done.
Qed.

Lemma on_file_eligible now c f st :
  eligible f → Multer.filesLeft st = 1 →
  Multer.on_file lib UPLOAD_DIR (opts now) "pdfFile" c f st
  = Multer.handleFile lib UPLOAD_DIR (opts now) c f
      (Multer.State 0 (Multer.uploadedFiles st) (Multer.dir st) (Multer.ops st)
                    (Multer.failed st)).
Proof.
  intros (Hname & Hfield & Hmime) Hleft. unfold Multer.on_file, named in *.
  apply negb_true_iff in Hname. rewrite Hname, Hfield, Hleft. simpl.
  unfold fileFilter. by rewrite Hmime.
Qed.

Lemma upload_no_directory now pre f post :
  forallb ignorable pre = true → forallb ignorable post = true → eligible f →
  upload now (Multipart (pre ++ PFile f :: post) Complete) None
  = Multer.Outcome
      (Some (PlainError ("ENOENT: no such file or directory, open '"
                         +:+ path_join UPLOAD_DIR (generated_name now f) +:+ "'")))
      None None [] None.
Proof.
  intros Hpre Hpost Hel. unfold upload, Multer.single. fold (opts now).
  rewrite run_app_ignorable by done. cbn [Multer.run Multer.on_part].
  rewrite on_file_eligible by done.
  unfold Multer.handleFile. simpl. rewrite String.eqb_refl. simpl.
  by rewrite run_ignorable.
Qed.

Lemma upload_open_refused now pre f post m message :
  forallb ignorable pre = true → forallb ignorable post = true → eligible f →
  open_refusal lib (path_join UPLOAD_DIR (generated_name now f)) = Some message →
  upload now (Multipart (pre ++ PFile f :: post) Complete) (Some m)
  = Multer.Outcome (Some (PlainError message)) None (Some m) [] None.
Proof.
  intros Hpre Hpost Hel Hopen. unfold upload, Multer.single. fold (opts now).
  rewrite run_app_ignorable by done. cbn [Multer.run Multer.on_part].
  rewrite on_file_eligible by done.
  unfold Multer.handleFile. simpl. rewrite String.eqb_refl. simpl.
  unfold generated_name in Hopen. rewrite Hopen.
  by rewrite run_ignorable.
Qed.

Lemma upload_single_stored now pre f post m :
  forallb ignorable pre = true → forallb ignorable post = true → eligible f →
  open_refusal lib (path_join UPLOAD_DIR (generated_name now f)) = None →
  upload now (Multipart (pre ++ PFile f :: post) Complete) (Some m)
  = Multer.Outcome None (Some (stored_as now f))
      (Some (<[generated_name now f := content f]> m))
      [OpWrite (generated_name now f) (content f)] None.
Proof.
  intros Hpre Hpost Hel Hopen. unfold upload, Multer.single. fold (opts now).
  rewrite run_app_ignorable by done. cbn [Multer.run Multer.on_part].
  rewrite on_file_eligible by done.
  unfold Multer.handleFile. simpl. rewrite String.eqb_refl. simpl.
  unfold generated_name in Hopen. rewrite Hopen. simpl.
  by rewrite run_ignorable.
Qed.

Lemma upload_cut_in_file now pre f message m :
  forallb ignorable pre = true → eligible f →
  open_refusal lib (path_join UPLOAD_DIR (generated_name now f)) = None →
  upload now (Multipart pre (Cut (PFile f) message)) (Some m)
  = Multer.Outcome (Some (PlainError message)) None
      (Some (<[generated_name now f := content f]> m))
      [OpWrite (generated_name now f) (content f)]
      (if late_errors lib then Some message else None).
Proof.
  intros Hpre Hel Hopen. unfold upload, Multer.single. fold (opts now).
  rewrite run_ignorable by done. cbn [Multer.on_unfinished].
  rewrite on_file_eligible by done.
  unfold Multer.handleFile. simpl. rewrite String.eqb_refl. simpl.
  unfold generated_name in Hopen. by rewrite Hopen.
Qed.

(** X8: a request whose only named file part is [f] (around it only text
    fields and empty file inputs, the body complete) is accepted exactly when
    [f] sits in the field [pdfFile], declares application/pdf, the upload
    directory exists and the file system opens the generated path for writing;
    the file is then stored under its generated name. *)
Theorem single_file_acceptance now req d pre f post :
  req_method req = POST → Express.route_matches "/upload" (path req) = true →
  req_body req = Multipart (pre ++ PFile f :: post) Complete →
  forallb ignorable pre = true → forallb ignorable post = true → named f = true →
  (status (app now req d).1 = 200
   ↔ fieldname f = "pdfFile" ∧ mimetype f = "application/pdf" ∧ existsSync d = true
     ∧ open_refusal lib (path_join (path_join dirname "uploads")
                                   (pretty now +:+ "-" +:+ originalname f)) = None)
  ∧ (status (app now req d).1 = 200 →
     payload (app now req d).1
     = Json (JObject [("success", JBool true);
                      ("message", JString "PDF uploaded successfully!");
                      ("filename", JString (pretty now +:+ "-" +:+ originalname f));
                      ("url", JString ("http://localhost:" +:+ port_text +:+ "/pdfs/"
                                       +:+ pretty now +:+ "-" +:+ originalname f))])
     ∧ ∃ m, d = Some m
            ∧ (app now req d).2
              = Some (<[pretty now +:+ "-" +:+ originalname f := content f]> m)).
Proof.
  intros Hm Hroute Hbody Hpre Hpost Hname.
  destruct (upload_response now req d Hm Hroute) as [Hres Hdir].
  rewrite Hres, Hdir, Hbody. clear Hres Hdir.
  change (path_join dirname "uploads") with UPLOAD_DIR.
  change (pretty now +:+ "-" +:+ originalname f) with (generated_name now f).
  destruct (String.eqb_spec (fieldname f) "pdfFile") as [Hfield|Hfield].
  - destruct (String.eqb_spec (mimetype f) "application/pdf") as [Hmime|Hmime].
    + assert (Hel : eligible f) by done. destruct d as [m|].
      * destruct (open_refusal lib (path_join UPLOAD_DIR (generated_name now f)))
          as [message|] eqn:Hopen.
        { rewrite (upload_open_refused now pre f post m message) by done. simpl.
          split; [|done]. split; [done|]. by intros (_ & _ & _ & ?). }
        rewrite upload_single_stored by done. simpl. split; [done|].
        intros _. split; [done|]. by exists m.
      * rewrite upload_no_directory by done. simpl. split; [|done].
        split; [done|]. by intros (_ & _ & ? & _).
    + rewrite upload_wrong_type by done. simpl. split; [|done].
      split; [done|]. by intros (_ & ? & _).
  - destruct (String.eqb_spec (fieldname f) "") as [Hfn|Hfn].
    + rewrite upload_no_field_name by done. simpl. split; [|done].
      split; [done|]. by intros (? & _).
    + rewrite upload_unexpected_field by done. simpl. split; [|done].
      split; [done|]. by intros (? & _).
Qed.

(** X9: two refusals with their status.  A named file in another field than
    [pdfFile] is answered 500 with the upload library's message for the code
    LIMIT_UNEXPECTED_FILE, before the declared type is looked at.  An
    acceptable file that is the only one of a complete request and arrives when
    the upload directory is gone is answered 400 with the message of the failed
    open, which names the path, and the directory is not created again. *)
Theorem single_file_refusals now req d pre f post ending :
  req_method req = POST → Express.route_matches "/upload" (path req) = true →
  req_body req = Multipart (pre ++ PFile f :: post) ending →
  forallb ignorable pre = true → named f = true →
  (fieldname f ≠ "" → fieldname f ≠ "pdfFile" →
   status (app now req d).1 = 500
   ∧ payload (app now req d).1
     = Json (JObject [("success", JBool false);
                      ("message",
                       JString ("Multer error: "
                                +:+ multer_message lib "LIMIT_UNEXPECTED_FILE"))])
   ∧ (app now req d).2 = d)
  ∧ (fieldname f = "pdfFile" → mimetype f = "application/pdf" → d = None →
     ending = Complete → forallb ignorable post = true →
     status (app now req d).1 = 400
     ∧ payload (app now req d).1
       = Json (JObject [("success", JBool false);
                        ("message",
                         JString ("ENOENT: no such file or directory, open '"
                                  +:+ path_join (path_join dirname "uploads")
                                                (pretty now +:+ "-" +:+ originalname f)
                                  +:+ "'"))])
     ∧ (app now req d).2 = None).
Proof.
  intros Hm Hroute Hbody Hpre Hname.
  destruct (upload_response now req d Hm Hroute) as [Hres Hdir].
  rewrite Hres, Hdir, Hbody. clear Hres Hdir. split.
  - intros Hfn Hfield. by rewrite upload_unexpected_field.
  - intros Hfield Hmime -> -> Hpost. by rewrite upload_no_directory.
Qed.

(** X13: how the upload route answers.  Every answer is JSON: the success
    object with status 200, or [{success:false, message}] with status 400 or
    500.  A body the parser gives up on after parts that are passed over is
    answered 400 with the parser's message; a text field without a name, and
    one whose name or value exceeds the parser's limits, are answered 500 with
    the library's message for that code after the text [Multer error: ]; none
    of these writes anything. *)
Theorem upload_answers now req d :
  req_method req = POST → Express.route_matches "/upload" (path req) = true →
  let res := (app now req d).1 in
  getHeader "Content-Type" res = Some "application/json; charset=utf-8"
  ∧ ((status res = 200
      ∧ ∃ name, payload res
                = Json (JObject [("success", JBool true);
                                 ("message", JString "PDF uploaded successfully!");
                                 ("filename", JString name);
                                 ("url", JString ("http://localhost:" +:+ port_text
                                                  +:+ "/pdfs/" +:+ name))]))
     ∨ ((status res = 400 ∨ status res = 500)
        ∧ ∃ m, payload res
               = Json (JObject [("success", JBool false); ("message", JString m)])))
  ∧ (∀ ps message,
       req_body req = Multipart ps (Malformed message) →
       forallb ignorable ps = true →
       status res = 400
       ∧ payload res
         = Json (JObject [("success", JBool false); ("message", JString message)])
       ∧ (app now req d).2 = d)
  ∧ (∀ pre name value nt vt post ending code,
       req_body req = Multipart (pre ++ PField name value nt vt :: post) ending →
       forallb ignorable pre = true →
       field_refusal name nt vt = Some code →
       status res = 500
       ∧ payload res
         = Json (JObject [("success", JBool false);
                          ("message",
                           JString ("Multer error: " +:+ multer_message lib code))])
       ∧ (app now req d).2 = d).
Proof.
  intros Hm Hroute res.
  destruct (upload_response now req d Hm Hroute) as [Hres Hdir].
  fold res in Hres. rewrite Hres, Hdir.
  split; [|split; [|split]].
  - destruct (Multer.error _) as [[code m|m]|], (Multer.file _); done.
  - destruct (Multer.error _) as [[code m|m]|], (Multer.file _) as [u|]; simpl; eauto 6.
  - intros ps message Hbody Hps. rewrite Hbody. by rewrite upload_parse_error.
  - intros pre name value nt vt post ending code Hbody Hpre Hcode. rewrite Hbody.
    by rewrite (upload_refused_field now pre name value nt vt post ending d code).
Qed.

(** X14: a body that is cut inside an acceptable file, the first file of the
    request, is answered 400 with the parser's message, and the bytes received
    so far stay in the directory under the generated name: the upload
    middleware unlinks only the files it has stored in full.  Where the parser
    raises its error once more after the middleware has dropped its listeners,
    that error is caught by nothing. *)
Theorem cut_upload_leaves_file now req m pre f message :
  req_method req = POST → Express.route_matches "/upload" (path req) = true →
  req_body req = Multipart pre (Cut (PFile f) message) →
  forallb ignorable pre = true →
  named f = true → fieldname f = "pdfFile" → mimetype f = "application/pdf" →
  open_refusal lib (path_join (path_join dirname "uploads")
                              (pretty now +:+ "-" +:+ originalname f)) = None →
  status (app now req (Some m)).1 = 400
  ∧ payload (app now req (Some m)).1
    = Json (JObject [("success", JBool false); ("message", JString message)])
  ∧ (app now req (Some m)).2
    = Some (<[pretty now +:+ "-" +:+ originalname f := content f]> m)
  ∧ Multer.performed (upload now (req_body req) (Some m))
    = [OpWrite (pretty now +:+ "-" +:+ originalname f) (content f)]
  ∧ uncaught_error now req (Some m) = (if late_errors lib then Some message else None).
Proof.
  intros Hm Hroute Hbody Hpre Hname Hfield Hmime Hopen.
  assert (Hel : eligible f) by done.
  destruct (upload_response now req (Some m) Hm Hroute) as [Hres Hdir].
  unfold uncaught_error. rewrite Hres, Hdir, Hm, Hroute, Hbody.
  by rewrite upload_cut_in_file.
Qed.

(** ** The static mount and the root page *)

Lemma handle_answer par d now req :
  handle (Listening (Disk par d)) now req
  = Some (Express.conditional lib req (app now req d).1,
          Listening (Disk par (app now req d).2)).
Proof. unfold handle. simpl. by destruct (app now req d). Qed.

(** X10: a GET on [/pdfs/name] without validators, for a plain name that is
    not empty and holds no backslash, is answered 200 by the static mount with
    the stored bytes when the name is present in the directory, and 404
    otherwise; the directory is not changed either way. *)
Theorem fetch_present_or_404 now hs b par d name :
  name ≠ "" → plain name → contains_char "092" name = false →
  Express.unconditional hs = true →
  ∃ res,
    handle (Listening (Disk par d)) now (Request GET ("/pdfs/" +:+ name) hs b)
    = Some (res, Listening (Disk par d))
    ∧ match entry d name with
      | Some data =>
          status res = 200 ∧ payload res = FileBytes data
          ∧ getHeader "Content-Type" res = Some (mime_lookup name)
      | None => status res = 404
      end.
Proof.
  intros Hne [Hslash Hdot] _ Hhs.
  destruct name as [|c rest]; [done|]. set (name := String c rest) in *.
  set (req := Request GET ("/pdfs/" +:+ name) hs b).
  assert (Hserv : ServeStatic.servable name = true).
  { unfold ServeStatic.servable. rewrite Hslash, Hdot.
    done. }
  rewrite handle_answer, conditional_unconditional by done.
  destruct d as [m|]; simpl.
  - destruct (m !! name) as [data|] eqn:Hlookup.
    + subst req. rewrite (app_fetch now hs b m name data) by done.
      by eexists.
    + assert (Hrest : Express.mount_rest "/pdfs" (path req) = Some (String "/" name))
        by done.
      assert (Hfall : router now req (cors fresh_response) (Some m)
                      = (Express.finalhandler req (cors fresh_response), Some m)) by done.
      unfold app. rewrite Hrest. unfold ServeStatic.serve. cbn [req_method req].
      cbn [Express.is_read negb]. cbn match.
      change (String.eqb name "") with false. cbn match.
      rewrite Hserv, Hlookup, Hfall. by eexists.
  - by eexists.
Qed.

(** X11: a GET on the root path without validators is answered 200 with the
    HTML banner whatever the state of the upload directory, which it does not
    touch. *)
Theorem root_page now req par d :
  req_method req = GET → Express.route_matches "/" (path req) = true →
  Express.unconditional (req_headers req) = true →
  ∃ res,
    handle (Listening (Disk par d)) now req = Some (res, Listening (Disk par d))
    ∧ status res = 200
    ∧ payload res = Html banner
    ∧ getHeader "Content-Type" res = Some "text/html; charset=utf-8".
Proof.
  intros Hm Hroute Hhs.
  assert (Hp : lower (path req) = "/" ∨ lower (path req) = "").
  { unfold Express.route_matches in Hroute. cbn [String.eqb Ascii.eqb Bool.eqb] in Hroute.
    apply orb_prop in Hroute as [H|H]; apply String.eqb_eq in H; auto. }
  rewrite handle_answer, conditional_unconditional by done.
  unfold app, Express.mount_rest, router, Express.finish.
  rewrite Hm, Hroute. destruct Hp as [-> | ->]; by eexists.
Qed.

(** X12: the static mount is registered before the listing route, so with the
    upload directory present a GET on the bare listing path is answered by the
    mount with a redirect to the same path with a trailing slash; on the path
    with the slash, with no [index.html] in the directory and no validators in
    the request, the listing handler answers 200. *)
Theorem listing_path_dispatch now req par m :
  req_method req = GET → Express.route_matches "/pdfs" (path req) = true →
  ∃ res,
    handle (Listening (Disk par (Some m))) now req
    = Some (res, Listening (Disk par (Some m)))
    ∧ (lower (path req) = "/pdfs" →
       status res = 301
       ∧ getHeader "Location" res = Some (path req +:+ "/")
       ∧ payload res = RedirectPage (path req +:+ "/"))
    ∧ (lower (path req) = "/pdfs/" → m !! "index.html" = None →
       Express.unconditional (req_headers req) = true →
       status res = 200
       ∧ payload res
         = Json (JObject
                   [("success", JBool true);
                    ("pdfs",
                     JArray ((λ n, JObject
                                     [("name", JString n);
                                      ("url", JString ("http://localhost:" +:+ port_text
                                                       +:+ "/pdfs/" +:+ n))])
                               <$> filter (λ file, endsWith file ".pdf" = true)
                                          (map_to_list m).*1))])).
Proof.
  intros Hm Hroute.
  assert (Hrouter : router now req (cors fresh_response) (Some m)
                    = (list_handler (cors fresh_response) (Some m), Some m)).
  { unfold router. rewrite Hm, Hroute. unfold Express.route_matches.
    destruct (route_pdfs_cases _ Hroute) as [-> | ->]; reflexivity. }
  rewrite handle_answer.
  destruct (app_listing now req (Some m) Hm Hroute) as [-> _].
  eexists. split; [done|]. split.
  - intros Hp.
    assert (Happ : (app now req (Some m)).1 = ServeStatic.redirect req (cors fresh_response)).
    { unfold app, Express.mount_rest, Express.finish. rewrite Hp, Hm. simpl.
      unfold ServeStatic.serve. by rewrite Hm. }
    rewrite Happ, conditional_unsuccessful by done. done.
  - intros Hp Hidx Hhs. rewrite conditional_unconditional by done.
    unfold app, Express.mount_rest, Express.finish. rewrite Hp, Hm.
    change (String.length "/pdfs") with 5%nat. rewrite (lower_pdfs_slash _ Hp).
    cbn [strip_prefix Ascii.eqb Bool.eqb]. cbn match.
    unfold ServeStatic.serve. rewrite Hm. cbn [Express.is_read negb].
    cbn match. change (String.eqb "" "") with true. cbn match.
    change (ServeStatic.servable "index.html") with true. cbn match.
    rewrite Hidx, Hrouter. done.
Qed.

End Server.

(** * Sample runs

    The application with PORT=8080, installed in [/srv/app]. *)

Example run_accepted_upload :
  app (Some "8080") "/srv/app" sample_mime sample_lib 1700000000123
      (post_upload [PFile sample_pdf]) (Some ∅)
  = (Response 200
       [("Access-Control-Allow-Origin", "*");
        ("Access-Control-Allow-Methods", "GET, POST");
        ("Access-Control-Allow-Headers", "Content-Type");
        ("Content-Type", "application/json; charset=utf-8")]
       (Json (JObject
                [("success", JBool true);
                 ("message", JString "PDF uploaded successfully!");
                 ("filename", JString "1700000000123-a.pdf");
                 ("url", JString "http://localhost:8080/pdfs/1700000000123-a.pdf")])),
     Some {[ "1700000000123-a.pdf" := [x25; x50; x44; x46]%byte ]}).
Proof. by vm_compute. Qed.

Example run_default_port :
  file_url None "7-b.pdf" = "http://localhost:3000/pdfs/7-b.pdf"
  ∧ file_url (Some "") "7-b.pdf" = "http://localhost:3000/pdfs/7-b.pdf".
Proof. by vm_compute. Qed.

Example run_bare_listing_path_redirects :
  status (app None "/srv/app" sample_mime sample_lib 0 (get "/pdfs") (Some sample_dir)).1
  = 301
  ∧ getHeader "Location"
      (app None "/srv/app" sample_mime sample_lib 0 (get "/pdfs") (Some sample_dir)).1
    = Some "/pdfs/".
Proof. by vm_compute. Qed.

Example run_second_file_refused :
  let r := app None "/srv/app" sample_mime sample_lib 9
               (post_upload [PFile sample_pdf; PFile sample_pdf]) (Some ∅) in
  status r.1 = 500
  ∧ payload r.1 = Json (JObject [("success", JBool false);
                                 ("message", JString "Multer error: Unexpected field")])
  ∧ r.2 = Some ∅.
Proof. by vm_compute. Qed.

Example run_upload_without_directory :
  let r := app None "/srv/app" sample_mime sample_lib 9
               (post_upload [PFile sample_pdf]) None in
  status r.1 = 400
  ∧ payload r.1
    = Json (JObject
              [("success", JBool false);
               ("message",
                JString "ENOENT: no such file or directory, open '/srv/app/uploads/9-a.pdf'")])
  ∧ r.2 = None.
Proof. by vm_compute. Qed.

Example run_nameless_field_refused :
  let r := app None "/srv/app" sample_mime sample_lib 9
               (post_upload [PField "" "v" false false]) (Some ∅) in
  status r.1 = 500
  ∧ payload r.1 = Json (JObject [("success", JBool false);
                                 ("message", JString "Multer error: Field name missing")])
  ∧ r.2 = Some ∅.
Proof. by vm_compute. Qed.

Example run_normalised_fetch :
  payload (app None "/srv/app" sample_mime sample_lib 9 (get "/pdfs//5-a.pdf")
               (Some sample_dir)).1 = FileBytes [x01]%byte
  ∧ payload (app None "/srv/app" sample_mime sample_lib 9 (get "/pdfs/./5-a.pdf")
                 (Some sample_dir)).1 = FileBytes [x01]%byte
  ∧ status (app None "/srv/app" sample_mime sample_lib 9 (get "/pdfs/.hidden")
                (Some sample_dir)).1 = 404.
Proof. by vm_compute. Qed.

Example run_long_name_refused :
  let long := FilePart "pdfFile"
                (String.concat "" (replicate 30 "0123456789") +:+ ".pdf")
                "application/pdf" [x25]%byte in
  let r := app None "/srv/app" sample_mime sample_lib 9 (post_upload [PFile long])
               (Some ∅) in
  status r.1 = 400 ∧ r.2 = Some ∅
  ∧ ∃ m, payload r.1 = Json (JObject [("success", JBool false); ("message", JString m)])
         ∧ strip_prefix "ENAMETOOLONG" m ≠ None.
Proof. vm_compute. split; [done|]. split; [done|]. eexists. split; [done|]. done. Qed.

Example run_conditional_fetch :
  let req := Request GET "/pdfs/5-a.pdf" [("If-Modified-Since", "Tue, 03 Nov 2026 00:00:00 GMT")] NotMultipart in
  status (app None "/srv/app" sample_mime sample_lib 9 req (Some sample_dir)).1 = 200
  ∧ (fst <$> handle None "/srv/app" sample_mime sample_lib
                    (Listening (Disk ParentWritable (Some sample_dir))) 9 req)
    = Some (Response 304
              [("Access-Control-Allow-Origin", "*");
               ("Access-Control-Allow-Methods", "GET, POST");
               ("Access-Control-Allow-Headers", "Content-Type");
               ("Accept-Ranges", "bytes");
               ("Cache-Control", "public, max-age=0");
               ("Content-Type", "application/pdf");
               ("Content-Length", "1")]
              NoBody).
Proof. by vm_compute. Qed.

(** * The theorems at concrete inputs *)


Lemma non_pdf_upload_rejected_witness :
  req_method (post_upload [PFile sample_text]) = POST
  ∧ Express.route_matches "/upload" (path (post_upload [PFile sample_text])) = true
  ∧ status (app None "/srv/app" sample_mime sample_lib 5
                (post_upload [PFile sample_text]) (Some sample_dir)).1 = 400
  ∧ payload (app None "/srv/app" sample_mime sample_lib 5
                 (post_upload [PFile sample_text]) (Some sample_dir)).1
    = Json (JObject [("success", JBool false);
                     ("message", JString "Only PDF files are allowed!")])
  ∧ Multer.performed (upload "/srv/app" sample_lib 5
                             (req_body (post_upload [PFile sample_text]))
                             (Some sample_dir)) = []
  ∧ (app None "/srv/app" sample_mime sample_lib 5 (post_upload [PFile sample_text])
         (Some sample_dir)).2 = Some sample_dir.
Proof.
  split; [reflexivity|]. split; [reflexivity|].
  assert (Hsome : ∃ f, PFile f ∈ parts_of (req_body (post_upload [PFile sample_text]))
                       ∧ named f = true).
  { exists sample_text. split; [apply list_elem_of_here|reflexivity]. }
  assert (Hall : ∀ f, PFile f ∈ parts_of (req_body (post_upload [PFile sample_text])) →
                      named f = true → mimetype f ≠ "application/pdf").
  { intros f Hin _. apply list_elem_of_singleton in Hin. injection Hin as ->.
    vm_compute. discriminate. }
  pose proof (non_pdf_upload_rejected None "/srv/app" sample_mime sample_lib 5
                (post_upload [PFile sample_text]) (Some sample_dir)
                eq_refl eq_refl Hsome Hall) as H.
  destruct H as (_ & Hops & Hdir & Hfirst).
  destruct (Hfirst [] sample_text [] Complete eq_refl eq_refl eq_refl eq_refl)
    as [Hst Hpay].
  split; [exact Hst|]. split; [exact Hpay|]. split; [exact Hops|exact Hdir].
Defined.



Lemma accepted_upload_response_witness :
  status (app (Some "8080") "/srv/app" sample_mime sample_lib 1700000000123
              (post_upload [PFile sample_pdf]) (Some ∅)).1 = 200
  ∧ ∃ f m,
      PFile f ∈ [PFile sample_pdf] ∧ eligible f ∧ Some ∅ = Some m
      ∧ payload (app (Some "8080") "/srv/app" sample_mime sample_lib 1700000000123
                     (post_upload [PFile sample_pdf]) (Some ∅)).1
        = Json (JObject
                  [("success", JBool true);
                   ("message", JString "PDF uploaded successfully!");
                   ("filename", JString (pretty 1700000000123%Z +:+ "-" +:+ originalname f));
                   ("url", JString ("http://localhost:" +:+ port_text (Some "8080")
                                    +:+ "/pdfs/"
                                    +:+ (pretty 1700000000123%Z +:+ "-" +:+ originalname f)))])
      ∧ (app (Some "8080") "/srv/app" sample_mime sample_lib 1700000000123
             (post_upload [PFile sample_pdf]) (Some ∅)).2
        = Some (<[pretty 1700000000123%Z +:+ "-" +:+ originalname f := content f]> m).
Proof.
  assert (Hok : status (app (Some "8080") "/srv/app" sample_mime sample_lib 1700000000123
                            (post_upload [PFile sample_pdf]) (Some ∅)).1 = 200)
    by (vm_compute; reflexivity).
  split; [exact Hok|].
  exact (accepted_upload_response (Some "8080") "/srv/app" sample_mime sample_lib
           1700000000123 (post_upload [PFile sample_pdf]) (Some ∅) eq_refl eq_refl Hok).
Defined.

Lemma listing_contents_witness :
  status (app (Some "8080") "/srv/app" sample_mime sample_lib 9 (get "/pdfs/")
              (Some sample_dir)).1
  = 200
  ∧ payload (app (Some "8080") "/srv/app" sample_mime sample_lib 9 (get "/pdfs/")
                 (Some sample_dir)).1
    = Json (JObject
              [("success", JBool true);
               ("pdfs",
                JArray [JObject [("name", JString "5-a.pdf");
                                 ("url", JString "http://localhost:8080/pdfs/5-a.pdf")]])])
  ∧ payload (app (Some "8080") "/srv/app" sample_mime sample_lib 9
                 (Request GET ("/pdfs/" +:+ "6-notes.txt") (req_headers (get "/pdfs/"))
                          NotMultipart) (Some sample_dir)).1
    = FileBytes [x02]%byte.
Proof.
  assert (Hok : status (app (Some "8080") "/srv/app" sample_mime sample_lib 9
                            (get "/pdfs/") (Some sample_dir)).1 = 200)
    by (vm_compute; reflexivity).
  assert (Hv : payload (app (Some "8080") "/srv/app" sample_mime sample_lib 9
                            (get "/pdfs/") (Some sample_dir)).1
               = Json (JObject
                         [("success", JBool true);
                          ("pdfs",
                           JArray [JObject
                                     [("name", JString "5-a.pdf");
                                      ("url",
                                       JString "http://localhost:8080/pdfs/5-a.pdf")]])]))
    by (vm_compute; reflexivity).
  split; [exact Hok|]. split; [exact Hv|].
  pose proof (listing_contents (Some "8080") "/srv/app" sample_mime sample_lib 9
                (get "/pdfs/") sample_dir eq_refl eq_refl Hok _ Hv) as H.
  destruct H as (_ & _ & _ & Hother).
  destruct (Hother "6-notes.txt" [x02]%byte) as [_ Hfetch];
    [vm_compute; reflexivity|vm_compute; reflexivity|].
  destruct Hfetch as (_ & Hbytes & _); [left; vm_compute; reflexivity|].
  exact Hbytes.
Defined.

Lemma listing_failure_is_500_witness :
  req_method (get "/pdfs") = GET
  ∧ Express.route_matches "/pdfs" (path (get "/pdfs")) = true
  ∧ status (app None "/srv/app" sample_mime sample_lib 9 (get "/pdfs") None).1 = 500
  ∧ handle None "/srv/app" sample_mime sample_lib (Listening (Disk ParentWritable None)) 9
           (get "/pdfs")
    = Some ((app None "/srv/app" sample_mime sample_lib 9 (get "/pdfs") None).1,
            Listening (Disk ParentWritable None)).
Proof.
  split; [reflexivity|]. split; [reflexivity|].
  pose proof (listing_failure_is_500 None "/srv/app" sample_mime sample_lib 9
                (get "/pdfs") ParentWritable eq_refl eq_refl) as H.
  destruct H as (_ & _ & Hst & _ & _ & Hgo). split; [exact Hst|exact Hgo].
Defined.

Lemma urls_point_to_localhost_witness :
  ∃ name,
    payload (app None "/srv/app" sample_mime sample_lib 7 (post_upload [PFile sample_pdf])
                 (Some sample_dir)).1
    = Json (JObject [("success", JBool true);
                     ("message", JString "PDF uploaded successfully!");
                     ("filename", JString name);
                     ("url", JString ("http://localhost:" +:+ "3000" +:+ "/pdfs/"
                                      +:+ name))]).
Proof.
  pose proof (urls_point_to_localhost None "/srv/app" sample_mime sample_lib 7
                (post_upload [PFile sample_pdf]) (Some sample_dir)) as H.
  destruct H as (Hupload & _ & _).
  apply Hupload; [reflexivity|reflexivity|vm_compute; reflexivity].
Defined.

Lemma startup_creates_directory_or_exits_witness :
  start (Disk ParentWritable None) = Listening (Disk ParentWritable (Some ∅))
  ∧ start (Disk ParentReadOnly None) = Exited
  ∧ start (Disk ParentMissing None) = Exited
  ∧ ∀ now req,
      is_Some (handle None "/srv/app" sample_mime sample_lib
                      (start (Disk ParentWritable None)) now req).
Proof.
  pose proof (startup_creates_directory_or_exits None "/srv/app" sample_mime sample_lib
                (Disk ParentWritable None)) as [[_ Hstart] Hlisten].
  pose proof (startup_creates_directory_or_exits None "/srv/app" sample_mime sample_lib
                (Disk ParentReadOnly None)) as [(_ & Hro & _) _].
  pose proof (startup_creates_directory_or_exits None "/srv/app" sample_mime sample_lib
                (Disk ParentMissing None)) as [(_ & Hmiss & _) _].
  split; [exact Hstart|]. split; [exact Hro|]. split; [exact Hmiss|].
  by destruct (Hlisten _ Hstart) as (_ & _ & Hserve).
Defined.

(** C9 does not hold of the code, which builds the name of a stored file from
    the clock and the original name without looking at the directory, and
    leaves the tidying after a failure to the upload library.  At clock reading
    5, with [5-a.pdf] stored: the upload of [a.pdf] succeeds, adds no entry and
    replaces the stored bytes; the upload of two files named [a.pdf] is
    refused, and the stored [5-a.pdf] is gone afterwards.  And an upload into
    the empty directory whose body ends inside the file is refused, and leaves
    a new file. *)
Lemma upload_collision_overwrites :
  status (app None "/srv/app" sample_mime sample_lib 5 (post_upload [PFile sample_pdf])
              (Some taken_dir)).1 = 200
  ∧ payload (app None "/srv/app" sample_mime sample_lib 5
                 (post_upload [PFile sample_pdf]) (Some taken_dir)).1
    = Json (accepted None "5-a.pdf")
  ∧ (app None "/srv/app" sample_mime sample_lib 5 (post_upload [PFile sample_pdf])
         (Some taken_dir)).2
    = Some {[ "5-a.pdf" := [x25; x50; x44; x46]%byte ]}
  ∧ entry (Some taken_dir) "5-a.pdf" = Some [x01]%byte
  ∧ ¬ (∃ name data,
         taken_dir !! name = None
         ∧ (app None "/srv/app" sample_mime sample_lib 5
                (post_upload [PFile sample_pdf]) (Some taken_dir)).2
           = Some (<[name := data]> taken_dir))
  ∧ ¬ (∀ k data,
         entry (Some taken_dir) k = Some data →
         entry (app None "/srv/app" sample_mime sample_lib 5
                    (post_upload [PFile sample_pdf]) (Some taken_dir)).2 k
         = Some data)
  ∧ status (app None "/srv/app" sample_mime sample_lib 5
                (post_upload [PFile sample_pdf; PFile sample_pdf]) (Some taken_dir)).1
    = 500
  ∧ (app None "/srv/app" sample_mime sample_lib 5
         (post_upload [PFile sample_pdf; PFile sample_pdf]) (Some taken_dir)).2
    = Some ∅
  ∧ status (app None "/srv/app" sample_mime sample_lib 5
                (post_cut [] (PFile sample_pdf)) (Some ∅)).1 = 400
  ∧ (app None "/srv/app" sample_mime sample_lib 5
         (post_cut [] (PFile sample_pdf)) (Some ∅)).2
    = Some {[ "5-a.pdf" := [x25; x50; x44; x46]%byte ]}.
Proof.
  assert (Hr : (app None "/srv/app" sample_mime sample_lib 5
                    (post_upload [PFile sample_pdf]) (Some taken_dir)).2
               = Some {[ "5-a.pdf" := [x25; x50; x44; x46]%byte ]})
    by (vm_compute; reflexivity).
  rewrite Hr.
  split; [by vm_compute|]. split; [by vm_compute|]. split; [done|].
  split; [by vm_compute|]. split; [|split; [|by vm_compute]].
  - intros (name & data & Hfresh & Heq). apply (inj Some) in Heq.
    apply (f_equal size) in Heq.
    rewrite map_size_insert_None in Heq by done.
    unfold taken_dir in Heq. rewrite !map_size_singleton in Heq. lia.
  - intros Hkeep. specialize (Hkeep "5-a.pdf" [x01]%byte).
    vm_compute in Hkeep. specialize (Hkeep eq_refl). discriminate.
Qed.

(** * The further properties at concrete inputs *)

Lemma directory_changes_only_by_upload_witness :
  (app None "/srv/app" sample_mime sample_lib 7 (post_upload [PFile sample_pdf])
       (Some ∅)).2 ≠ Some ∅
  ∧ req_method (post_upload [PFile sample_pdf]) = POST
  ∧ ∃ f, PFile f ∈ parts_of (req_body (post_upload [PFile sample_pdf])) ∧ eligible f.
Proof.
  assert (Hchanged : (app None "/srv/app" sample_mime sample_lib 7
                          (post_upload [PFile sample_pdf]) (Some ∅)).2 ≠ Some ∅).
  { intros H. apply (f_equal (λ d, entry d "7-a.pdf")) in H.
    vm_compute in H. discriminate. }
  split; [exact Hchanged|].
  destruct (directory_changes_only_by_upload None "/srv/app" sample_mime sample_lib 7
              (post_upload [PFile sample_pdf]) (Some ∅) Hchanged) as (Hm & _ & Hf).
  split; [exact Hm|exact Hf].
Defined.

Lemma started_service_keeps_directory_witness :
  start (Disk ParentWritable None) = Listening (Disk ParentWritable (Some ∅))
  ∧ (serve_all None "/srv/app" sample_mime sample_lib (start (Disk ParentWritable None))
               [(7%Z, post_upload [PFile sample_pdf]); (8%Z, get "/pdfs/")]).2
    = Listening (Disk ParentWritable
                      (Some {[ "7-a.pdf" := [x25; x50; x44; x46]%byte ]}))
  ∧ existsSync (Some {[ "7-a.pdf" := [x25; x50; x44; x46]%byte ]}) = true
  ∧ bootstrap (Disk ParentWritable (Some {[ "7-a.pdf" := [x25; x50; x44; x46]%byte ]}))
    = Some (Disk ParentWritable (Some {[ "7-a.pdf" := [x25; x50; x44; x46]%byte ]})).
Proof.
  assert (Hend : (serve_all None "/srv/app" sample_mime sample_lib
                            (start (Disk ParentWritable None))
                            [(7%Z, post_upload [PFile sample_pdf]); (8%Z, get "/pdfs/")]).2
                 = Listening (Disk ParentWritable
                                   (Some {[ "7-a.pdf" := [x25; x50; x44; x46]%byte ]})))
    by (vm_compute; reflexivity).
  split; [reflexivity|]. split; [exact Hend|].
  destruct (started_service_keeps_directory None "/srv/app" sample_mime sample_lib
              (Disk ParentWritable None) (Disk ParentWritable (Some ∅))
              [(7%Z, post_upload [PFile sample_pdf]); (8%Z, get "/pdfs/")]
              (Disk ParentWritable (Some {[ "7-a.pdf" := [x25; x50; x44; x46]%byte ]}))
              eq_refl Hend) as (Hex & _ & Hboot).
  split; [exact Hex|exact Hboot].
Defined.

Lemma entry_persists_witness :
  ∃ d', (serve_all None "/srv/app" sample_mime sample_lib
                   (Listening (Disk ParentWritable (Some sample_dir)))
                   [(7%Z, post_upload [PFile sample_pdf])]).2 = Listening d'
        ∧ entry (uploads d') "5-a.pdf" = Some [x01]%byte.
Proof.
  apply (entry_persists None "/srv/app" sample_mime sample_lib
           (Disk ParentWritable (Some sample_dir))
           [(7%Z, post_upload [PFile sample_pdf])] "5-a.pdf").
  intros now req f Hreq _ Hf.
  apply list_elem_of_singleton in Hreq. injection Hreq as -> ->.
  apply list_elem_of_singleton in Hf. injection Hf as ->.
  vm_compute. discriminate.
Defined.

Lemma storage_filename_inj_witness :
  storage_filename 5 sample_pdf
  = storage_filename 5 (FilePart "pdfFile" "a.pdf" "application/pdf" [])
  ∧ 5%Z = 5%Z
  ∧ originalname sample_pdf
    = originalname (FilePart "pdfFile" "a.pdf" "application/pdf" []).
Proof.
  split; [reflexivity|].
  exact (storage_filename_inj 5 5 sample_pdf
           (FilePart "pdfFile" "a.pdf" "application/pdf" []) eq_refl).
Defined.

Lemma two_accepted_uploads_witness :
  status (app None "/srv/app" sample_mime sample_lib 5 (post_upload [PFile sample_pdf])
              (Some ∅)).1
  = 200
  ∧ status (app None "/srv/app" sample_mime sample_lib 6 (post_upload [PFile sample_scan])
                (app None "/srv/app" sample_mime sample_lib 5
                     (post_upload [PFile sample_pdf]) (Some ∅)).2).1 = 200
  ∧ ∃ f1 f2,
      PFile f1 ∈ [PFile sample_pdf] ∧ PFile f2 ∈ [PFile sample_scan]
      ∧ entry (app None "/srv/app" sample_mime sample_lib 6
                   (post_upload [PFile sample_scan])
                   (app None "/srv/app" sample_mime sample_lib 5
                        (post_upload [PFile sample_pdf]) (Some ∅)).2).2
              (pretty 6%Z +:+ "-" +:+ originalname f2)
        = Some (content f2)
      ∧ (5%Z ≠ 6%Z ∨ originalname f1 ≠ originalname f2 →
         entry (app None "/srv/app" sample_mime sample_lib 6
                    (post_upload [PFile sample_scan])
                    (app None "/srv/app" sample_mime sample_lib 5
                         (post_upload [PFile sample_pdf]) (Some ∅)).2).2
               (pretty 5%Z +:+ "-" +:+ originalname f1)
         = Some (content f1)).
Proof.
  assert (Hok1 : status (app None "/srv/app" sample_mime sample_lib 5
                             (post_upload [PFile sample_pdf]) (Some ∅)).1 = 200)
    by (vm_compute; reflexivity).
  assert (Hok2 : status (app None "/srv/app" sample_mime sample_lib 6
                             (post_upload [PFile sample_scan])
                             (app None "/srv/app" sample_mime sample_lib 5
                                  (post_upload [PFile sample_pdf]) (Some ∅)).2).1 = 200)
    by (vm_compute; reflexivity).
  split; [exact Hok1|]. split; [exact Hok2|].
  destruct (two_accepted_uploads None "/srv/app" sample_mime sample_lib 5
              (post_upload [PFile sample_pdf]) 6 (post_upload [PFile sample_scan])
              (Some ∅) eq_refl eq_refl eq_refl eq_refl Hok1 Hok2)
    as (f1 & f2 & Hin1 & Hin2 & _ & _ & Hsecond & Hfirst & _).
  exists f1, f2. split; [exact Hin1|]. split; [exact Hin2|].
  split; [exact Hsecond|exact Hfirst].
Defined.

Lemma upload_then_fetch_witness :
  status (app None "/srv/app" sample_mime sample_lib 7 (post_upload [PFile sample_scan])
              (Some sample_dir)).1 = 200
  ∧ Express.unconditional [("Accept", "*/*")] = true
  ∧ ∃ f,
      PFile f ∈ [PFile sample_scan]
      ∧ (contains_char "/" (originalname f) = false →
         contains_char "092" (originalname f) = false →
         ∃ res,
           handle None "/srv/app" sample_mime sample_lib
                  (Listening
                     (Disk ParentWritable
                           (app None "/srv/app" sample_mime sample_lib 7
                                (post_upload [PFile sample_scan]) (Some sample_dir)).2))
                  9 (Request GET ("/pdfs/" +:+ pretty 7%Z +:+ "-" +:+ originalname f)
                             [("Accept", "*/*")] NotMultipart)
           = Some (res,
                   Listening
                     (Disk ParentWritable
                           (app None "/srv/app" sample_mime sample_lib 7
                                (post_upload [PFile sample_scan]) (Some sample_dir)).2))
           ∧ status res = 200
           ∧ payload res = FileBytes (content f)).
Proof.
  assert (Hok : status (app None "/srv/app" sample_mime sample_lib 7
                            (post_upload [PFile sample_scan]) (Some sample_dir)).1 = 200)
    by (vm_compute; reflexivity).
  split; [exact Hok|]. split; [reflexivity|].
  destruct (upload_then_fetch None "/srv/app" sample_mime sample_lib 7
              (post_upload [PFile sample_scan]) ParentWritable (Some sample_dir) 9
              [("Accept", "*/*")] NotMultipart eq_refl eq_refl Hok eq_refl)
    as (f & Hin & _ & Hfetch).
  exists f. split; [exact Hin|]. intros Hplain Hback.
  destruct (Hfetch Hplain Hback) as (res & Hres & Hst & Hbytes & _).
  exists res. split; [exact Hres|]. split; [exact Hst|exact Hbytes].
Defined.

Lemma upload_listed_iff_pdf_suffix_witness :
  status (app None "/srv/app" sample_mime sample_lib 7 (post_upload [PFile sample_scan])
              (Some sample_dir)).1 = 200
  ∧ ∃ f items,
      PFile f ∈ [PFile sample_scan]
      ∧ payload (list_handler None fresh_response
                   (app None "/srv/app" sample_mime sample_lib 7
                        (post_upload [PFile sample_scan]) (Some sample_dir)).2)
        = Json (JObject [("success", JBool true); ("pdfs", JArray items)])
      ∧ (pdf_entry None (pretty 7%Z +:+ "-" +:+ originalname f) ∈ items
         ↔ endsWith (originalname f) ".pdf" = true).
Proof.
  assert (Hok : status (app None "/srv/app" sample_mime sample_lib 7
                            (post_upload [PFile sample_scan]) (Some sample_dir)).1 = 200)
    by (vm_compute; reflexivity).
  split; [exact Hok|].
  destruct (upload_listed_iff_pdf_suffix None "/srv/app" sample_mime sample_lib 7
              (post_upload [PFile sample_scan]) (Some sample_dir) fresh_response
              eq_refl eq_refl Hok) as (f & items & Hin & _ & Hpay & Hiff).
  exists f, items. split; [exact Hin|]. split; [exact Hpay|exact Hiff].
Defined.

Lemma single_file_acceptance_witness :
  forallb ignorable [PField "note" "hello" false false] = true
  ∧ named sample_pdf = true
  ∧ (status (app None "/srv/app" sample_mime sample_lib 7
                 (post_upload [PField "note" "hello" false false; PFile sample_pdf])
                 (Some sample_dir)).1 = 200
     ↔ fieldname sample_pdf = "pdfFile" ∧ mimetype sample_pdf = "application/pdf"
       ∧ existsSync (Some sample_dir) = true
       ∧ open_refusal sample_lib
           (path_join (path_join "/srv/app" "uploads")
                      (pretty 7%Z +:+ "-" +:+ originalname sample_pdf)) = None).
Proof.
  split; [reflexivity|]. split; [reflexivity|].
  destruct (single_file_acceptance None "/srv/app" sample_mime sample_lib 7
              (post_upload [PField "note" "hello" false false; PFile sample_pdf])
              (Some sample_dir) [PField "note" "hello" false false] sample_pdf []
              eq_refl eq_refl eq_refl eq_refl eq_refl eq_refl) as [Hiff _].
  exact Hiff.
Defined.

Lemma single_file_refusals_witness :
  named sample_wrong_field = true
  ∧ fieldname sample_wrong_field ≠ ""
  ∧ fieldname sample_wrong_field ≠ "pdfFile"
  ∧ status (app None "/srv/app" sample_mime sample_lib 7
                (post_upload [PFile sample_wrong_field]) (Some sample_dir)).1 = 500
  ∧ status (app None "/srv/app" sample_mime sample_lib 7 (post_upload [PFile sample_pdf])
                None).1
    = 400.
Proof.
  assert (Hnamed : fieldname sample_wrong_field ≠ "") by (vm_compute; discriminate).
  assert (Hfield : fieldname sample_wrong_field ≠ "pdfFile")
    by (vm_compute; discriminate).
  split; [reflexivity|]. split; [exact Hnamed|]. split; [exact Hfield|].
  destruct (single_file_refusals None "/srv/app" sample_mime sample_lib 7
              (post_upload [PFile sample_wrong_field]) (Some sample_dir)
              [] sample_wrong_field [] Complete eq_refl eq_refl eq_refl eq_refl eq_refl)
    as [Hwrong _].
  destruct (single_file_refusals None "/srv/app" sample_mime sample_lib 7
              (post_upload [PFile sample_pdf]) None
              [] sample_pdf [] Complete eq_refl eq_refl eq_refl eq_refl eq_refl)
    as [_ Hgone].
  destruct (Hwrong Hnamed Hfield) as (H500 & _).
  destruct (Hgone eq_refl eq_refl eq_refl eq_refl eq_refl) as (H400 & _).
  split; [exact H500|exact H400].
Defined.

Lemma fetch_present_or_404_witness :
  "5-a.pdf" ≠ ""
  ∧ plain "5-a.pdf"
  ∧ contains_char "092" "5-a.pdf" = false
  ∧ Express.unconditional [("Accept", "*/*")] = true
  ∧ ∃ res,
      handle None "/srv/app" sample_mime sample_lib
             (Listening (Disk ParentWritable (Some sample_dir))) 9
             (Request GET ("/pdfs/" +:+ "5-a.pdf") [("Accept", "*/*")] NotMultipart)
      = Some (res, Listening (Disk ParentWritable (Some sample_dir)))
      ∧ match entry (Some sample_dir) "5-a.pdf" with
        | Some data =>
            status res = 200 ∧ payload res = FileBytes data
            ∧ getHeader "Content-Type" res = Some (sample_mime "5-a.pdf")
        | None => status res = 404
        end.
Proof.
  assert (Hne : "5-a.pdf" ≠ "") by discriminate.
  assert (Hplain : plain "5-a.pdf") by (split; reflexivity).
  split; [exact Hne|]. split; [exact Hplain|]. split; [reflexivity|].
  split; [reflexivity|].
  exact (fetch_present_or_404 None "/srv/app" sample_mime sample_lib 9
           [("Accept", "*/*")] NotMultipart ParentWritable (Some sample_dir) "5-a.pdf"
           Hne Hplain eq_refl eq_refl).
Defined.

Lemma root_page_witness :
  req_method (get "/") = GET
  ∧ Express.route_matches "/" (path (get "/")) = true
  ∧ Express.unconditional (req_headers (get "/")) = true
  ∧ ∃ res,
      handle None "/srv/app" sample_mime sample_lib
             (Listening (Disk ParentWritable None)) 7 (get "/")
      = Some (res, Listening (Disk ParentWritable None))
      ∧ status res = 200
      ∧ payload res = Html banner.
Proof.
  split; [reflexivity|]. split; [reflexivity|]. split; [reflexivity|].
  destruct (root_page None "/srv/app" sample_mime sample_lib 7 (get "/")
              ParentWritable None eq_refl eq_refl eq_refl)
    as (res & Hres & Hst & Hpay & _).
  exists res. split; [exact Hres|]. split; [exact Hst|exact Hpay].
Defined.

Lemma listing_path_dispatch_witness :
  lower (path (get "/pdfs")) = "/pdfs"
  ∧ (∃ res,
       handle None "/srv/app" sample_mime sample_lib
              (Listening (Disk ParentWritable (Some sample_dir))) 7 (get "/pdfs")
       = Some (res, Listening (Disk ParentWritable (Some sample_dir)))
       ∧ status res = 301
       ∧ getHeader "Location" res = Some "/pdfs/")
  ∧ sample_dir !! "index.html" = None
  ∧ ∃ res,
      handle None "/srv/app" sample_mime sample_lib
             (Listening (Disk ParentWritable (Some sample_dir))) 7 (get "/PDFS/")
      = Some (res, Listening (Disk ParentWritable (Some sample_dir)))
      ∧ status res = 200.
Proof.
  assert (Hidx : sample_dir !! "index.html" = None) by (vm_compute; reflexivity).
  destruct (listing_path_dispatch None "/srv/app" sample_mime sample_lib 7 (get "/pdfs")
              ParentWritable sample_dir eq_refl eq_refl) as (r1 & Hr1 & Hbare & _).
  destruct (listing_path_dispatch None "/srv/app" sample_mime sample_lib 7 (get "/PDFS/")
              ParentWritable sample_dir eq_refl eq_refl) as (r2 & Hr2 & _ & Hslash).
  destruct (Hbare eq_refl) as (H301 & Hloc & _).
  destruct (Hslash eq_refl Hidx eq_refl) as (H200 & _).
  split; [reflexivity|]. split; [by exists r1|]. split; [exact Hidx|by exists r2].
Defined.

Lemma upload_answers_witness :
  field_refusal "" false false = Some "MISSING_FIELD_NAME"
  ∧ status (app None "/srv/app" sample_mime sample_lib 7
                (post_upload [PField "" "v" false false]) (Some sample_dir)).1 = 500
  ∧ payload (app None "/srv/app" sample_mime sample_lib 7
                 (post_upload [PField "" "v" false false]) (Some sample_dir)).1
    = Json (JObject [("success", JBool false);
                     ("message",
                      JString ("Multer error: "
                               +:+ multer_message sample_lib "MISSING_FIELD_NAME"))])
  ∧ getHeader "Content-Type"
      (app None "/srv/app" sample_mime sample_lib 7
           (post_upload [PField "" "v" false false]) (Some sample_dir)).1
    = Some "application/json; charset=utf-8".
Proof.
  split; [reflexivity|].
  pose proof (upload_answers None "/srv/app" sample_mime sample_lib 7
                (post_upload [PField "" "v" false false]) (Some sample_dir)
                eq_refl eq_refl) as H.
  destruct H as (Htype & _ & _ & Hfield).
  destruct (Hfield [] "" "v" false false [] Complete "MISSING_FIELD_NAME"
                   eq_refl eq_refl eq_refl) as (Hst & Hpay & _).
  split; [exact Hst|]. split; [exact Hpay|exact Htype].
Defined.

Lemma cut_upload_leaves_file_witness :
  req_body (post_cut [] (PFile sample_pdf))
  = Multipart [] (Cut (PFile sample_pdf) "Unexpected end of form")
  ∧ status (app None "/srv/app" sample_mime sample_lib 5
                (post_cut [] (PFile sample_pdf)) (Some sample_dir)).1 = 400
  ∧ (app None "/srv/app" sample_mime sample_lib 5
         (post_cut [] (PFile sample_pdf)) (Some sample_dir)).2
    = Some (<[pretty 5%Z +:+ "-" +:+ originalname sample_pdf := content sample_pdf]>
              sample_dir)
  ∧ uncaught_error "/srv/app" sample_lib 5 (post_cut [] (PFile sample_pdf))
                   (Some sample_dir)
    = (if late_errors sample_lib then Some "Unexpected end of form" else None).
Proof.
  split; [reflexivity|].
  destruct (cut_upload_leaves_file None "/srv/app" sample_mime sample_lib 5
              (post_cut [] (PFile sample_pdf)) sample_dir [] sample_pdf
              "Unexpected end of form"
              eq_refl eq_refl eq_refl eq_refl eq_refl eq_refl eq_refl eq_refl)
    as (Hst & _ & Hdir & _ & Hlate).
  split; [exact Hst|]. split; [exact Hdir|exact Hlate].
Defined.

Lemma accepted_upload_effect_witness :
  status (app None "/srv/app" sample_mime sample_lib 7 (post_upload [PFile sample_pdf])
              (Some sample_dir)).1 = 200
  ∧ ∃ f m,
      PFile f ∈ [PFile sample_pdf] ∧ Some sample_dir = Some m
      ∧ (app None "/srv/app" sample_mime sample_lib 7 (post_upload [PFile sample_pdf])
             (Some sample_dir)).2
        = Some (<[pretty 7%Z +:+ "-" +:+ originalname f := content f]> m)
      ∧ Multer.performed (upload "/srv/app" sample_lib 7
                                 (req_body (post_upload [PFile sample_pdf]))
                                 (Some sample_dir))
        = [OpWrite (pretty 7%Z +:+ "-" +:+ originalname f) (content f)].
Proof.
  assert (Hok : status (app None "/srv/app" sample_mime sample_lib 7
                            (post_upload [PFile sample_pdf]) (Some sample_dir)).1 = 200)
    by (vm_compute; reflexivity).
  split; [exact Hok|].
  destruct (accepted_upload_effect None "/srv/app" sample_mime sample_lib 7
              (post_upload [PFile sample_pdf]) (Some sample_dir) eq_refl eq_refl Hok)
    as (f & m & Hin & Hd & Hdir & Hops & _).
  exists f, m. split; [exact Hin|]. split; [exact Hd|]. split; [exact Hdir|exact Hops].
Defined.
